(** * Sales dashboard: the filter / aggregate pipeline of [app.py]

    A shallow embedding of the data pipeline of the Streamlit script
    [app.py]: the synthetic order table built by [load_data], the
    two-dimensional filter that yields [df_filtered], the three scalar KPIs
    and the group-by aggregations that feed the charts.

    Conventions of the embedding.
    - A [DataFrame] is the list of its rows, in index order.
    - [float64] columns hold finite values only ([np.random.uniform(10, 100)]
      times a small integer); an entry is represented by its exact rational
      value ([Qc]) and [sum] and [mean] add and divide exactly, so what is
      proved of sums is proved of the exact sums.  Where rounding decides a
      statement, the entries are rounded to binary64 ([binary64]) and added
      with the machine addition.  The one non-finite value the script can
      produce, the [NaN] that [Series.mean] returns for an empty column, is
      kept as a separate constructor.
    - pandas operations ([isin], [unique], [nunique], [sum], [mean],
      [groupby] with its default [sort=True], [nlargest] with its default
      [keep='first']) follow the behaviour pandas documents for them.
    - The seeded random stream of numpy is a function from the row number to
      the values drawn for that row. *)

From Stdlib Require Import List String Ascii Bool Arith ZArith Lia.
From Stdlib Require Import QArith Qcanon.
From Stdlib Require Import Lists.Finite Sorting.Sorted Sorting.Permutation.
From Stdlib Require Import Structures.OrderedTypeEx DecimalString.
From Stdlib Require Import DecimalPos DecimalZ.
From Stdlib Require Floats.PrimFloat Numbers.Cyclic.Int63.Uint63.
Import ListNotations.

Local Close Scope Qc_scope.
Local Close Scope Q_scope.
Local Open Scope string_scope.
Local Open Scope list_scope.

(** ** Column values *)

(** A value of a float column as the presentation layer receives it. *)
Inductive float64 : Type :=
| Finite (q : Qc)
| NaN.

(** Keys that [groupby] can sort and values that [nlargest] can rank. *)
Class Key (K : Type) : Type := { cmp : K -> K -> comparison }.

#[export] Instance Key_string : Key string := {| cmp := String.compare |}.
#[export] Instance Key_Z : Key Z := {| cmp := Z.compare |}.
#[export] Instance Key_Qc : Key Qc := {| cmp := Qccompare |}.

(** Tuples compare lexicographically, as Python tuples do. *)
#[export] Instance Key_pair {A B : Type} `{Key A} `{Key B} : Key (A * B) :=
  {| cmp := fun x y =>
              match cmp (fst x) (fst y) with
              | Eq => cmp (snd x) (snd y)
              | c => c
              end |}.

(** Numeric dtypes that [sum] reduces. *)
Class Dtype (V : Type) : Type := { zero : V; add : V -> V -> V }.

#[export] Instance Dtype_Z : Dtype Z := {| zero := 0%Z; add := Z.add |}.
#[export] Instance Dtype_Qc : Dtype Qc := {| zero := 0%Qc; add := Qcplus |}.

(** binary64 with the machine addition, rounded to nearest. *)
#[export] Instance Dtype_binary64 : Dtype PrimFloat.float :=
  {| zero := PrimFloat.of_uint63 (Uint63.of_Z 0); add := PrimFloat.add |}.

(** ** The pandas operations the script calls *)

Module Pandas.

Section Membership.
Context {A : Type} (eqb : A -> A -> bool).

(** [Series.isin(values)], at one element. *)
Definition isin (values : list A) (x : A) : bool := existsb (eqb x) values.

(** [Series.unique()]: the distinct values in order of first appearance. *)
Fixpoint unique (l : list A) : list A :=
  match l with
  | [] => []
  | x :: l' => x :: filter (fun y => negb (eqb x y)) (unique l')
  end.

(** [Series.nunique()]. *)
Definition nunique (l : list A) : Z := Z.of_nat (List.length (unique l)).
End Membership.

Section Reductions.
Context {V : Type} `{Dtype V}.

(** [Series.sum()]: the entries added up in index order, 0 when empty.  On
    a [Qc] column every addition is exact; on a binary64 column every
    addition rounds. *)
Definition sum (xs : list V) : V := fold_left add xs zero.
End Reductions.

(** [Series.mean()] of a float column: [NaN] when there is no entry,
    otherwise the exact quotient of the exact sum by the number of
    entries. *)
Definition mean (xs : list Qc) : float64 :=
  match xs with
  | [] => NaN
  | _ :: _ => Finite (sum xs / Q2Qc (inject_Z (Z.of_nat (List.length xs))))%Qc
  end.

Section GroupBy.
Context {R K : Type} `{Key K}.

(** Puts row [r] in the group of key [k]; groups stay ordered by key and a
    group keeps its rows in index order. *)
Fixpoint group_insert (k : K) (r : R) (gs : list (K * list R))
  : list (K * list R) :=
  match gs with
  | [] => [(k, [r])]
  | (k', g) :: gs' =>
      match cmp k k' with
      | Lt => (k, [r]) :: gs
      | Eq => (k', g ++ [r]) :: gs'
      | Gt => (k', g) :: group_insert k r gs'
      end
  end.

(** [df.groupby(key)] with [sort=True]: one group per key value that
    occurs, in ascending key order. *)
Definition groupby (key : R -> K) (df : list R) : list (K * list R) :=
  fold_left (fun gs r => group_insert (key r) r gs) df [].

(** [groupby(key)[col].sum()] (and any other per-group reduction). *)
Definition agg {V : Type} (reduce : list R -> V) (gs : list (K * list R))
  : list (K * V) :=
  map (fun kg => (fst kg, reduce (snd kg))) gs.
End GroupBy.

Section NLargest.
Context {K V : Type} `{Key V}.

(** Places [x] behind every entry whose value is at least its own. *)
Fixpoint insert_desc (x : K * V) (l : list (K * V)) : list (K * V) :=
  match l with
  | [] => [x]
  | y :: l' =>
      match cmp (snd y) (snd x) with
      | Lt => x :: y :: l'
      | _ => y :: insert_desc x l'
      end
  end.

(** Descending order of value; equal values keep their order in [s]. *)
Definition sort_values_desc (s : list (K * V)) : list (K * V) :=
  fold_left (fun acc x => insert_desc x acc) s [].

(** [Series.nlargest(n)], [keep='first']. *)
Definition nlargest (n : nat) (s : list (K * V)) : list (K * V) :=
  firstn n (sort_values_desc s).
End NLargest.

End Pandas.

(** ** The order table *)

Record Row : Type := mkRow {
  OrderID : Z;
  Date : Z;          (* Timestamp: nanoseconds since the epoch *)
  Region : string;
  Category : string;
  Product : string;
  Quantity : Z;
  UnitPrice : Qc;
  CustomerID : Z;
  TotalPrice : Qc
}.

Definition DataFrame : Type := list Row.

(** What the seeded generator draws for one row: positions for the three
    [np.random.choice] columns, numbers for the others. *)
Record Draw : Type := mkDraw {
  draw_date : nat;
  draw_region : nat;
  draw_category : nat;
  draw_product : Z;
  draw_quantity : Z;
  draw_unit_price : Qc;
  draw_customer : Z
}.

Definition RandomState : Type := nat -> Draw.

Definition ns_per_day : Z := 86400000000000.

(** [pd.date_range('2023-01-01', '2024-12-31')]: 731 midnights, the first
    one 19358 days after the epoch. *)
Definition date_range_2023_2024 : list Z :=
  map (fun k => ((19358 + Z.of_nat k) * ns_per_day)%Z) (seq 0 731).

Definition region_options : list string :=
  ["North"; "South"; "East"; "West"; "Central"].

Definition category_options : list string :=
  ["Electronics"; "Clothing"; "Home Goods"; "Books"].

(** [np.random.choice(a)] once the position is drawn. *)
Definition choice {A : Type} (a : list A) (default : A) (pos : nat) : A :=
  nth pos a default.

(** [str(i)] for an integer. *)
Definition str_int (i : Z) : string := NilZero.string_of_int (Z.to_int i).

Definition n_rows : nat := 1000.

Definition load_row (i : nat) (d : Draw) : Row :=
  let quantity := draw_quantity d in
  let unit_price := draw_unit_price d in
  {| OrderID := Z.of_nat i;
     Date := choice date_range_2023_2024 0%Z (draw_date d);
     Region := choice region_options "" (draw_region d);
     Category := choice category_options "" (draw_category d);
     Product := String.append "Product_" (str_int (draw_product d));
     Quantity := quantity;
     UnitPrice := unit_price;
     CustomerID := draw_customer d;
     TotalPrice := (Q2Qc (inject_Z quantity) * unit_price)%Qc |}.

(** [load_data()]: order ids are [range(1, n_rows + 1)]. *)
Definition load_data (rng : RandomState) : DataFrame :=
  map (fun i => load_row (S i) (rng i)) (seq 0 n_rows).

(** ** Filter *)

(** The boolean mask
    [df['Region'].isin(regions) & df['Category'].isin(categories)]. *)
Definition mask (regions categories : list string) (r : Row) : bool :=
  Pandas.isin String.eqb regions (Region r)
  && Pandas.isin String.eqb categories (Category r).

Definition df_filtered (df : DataFrame) (regions categories : list string)
  : DataFrame :=
  filter (mask regions categories) df.

(** ** KPIs *)

Definition total_sales (view : DataFrame) : Qc :=
  Pandas.sum (map TotalPrice view).

Definition avg_order_value (view : DataFrame) : float64 :=
  Pandas.mean (map TotalPrice view).

Definition total_orders (view : DataFrame) : Z :=
  Pandas.nunique Z.eqb (map OrderID view).

(** ** Aggregations behind the charts *)

(** [Series.dt.date]: the calendar day of a timestamp, as a day number. *)
Definition dt_date (ts : Z) : Z := (ts / ns_per_day)%Z.

(** [group[col].sum()] for the rows of one group. *)
Definition column_sum {V : Type} `{Dtype V} (col : Row -> V) (g : list Row)
  : V :=
  Pandas.sum (map col g).

(** [view.groupby(key)[col].sum().reset_index()]. *)
Definition groupby_sum {K V : Type} `{Key K} `{Dtype V}
  (key : Row -> K) (col : Row -> V) (view : DataFrame) : list (K * V) :=
  Pandas.agg (column_sum col) (Pandas.groupby key view).

Definition daily_sales (view : DataFrame) : list (Z * Qc) :=
  groupby_sum (fun r => dt_date (Date r)) TotalPrice view.

Definition sales_trend_category (view : DataFrame) : list ((Z * string) * Qc) :=
  groupby_sum (fun r => (dt_date (Date r), Category r)) TotalPrice view.

Definition sales_by_region (view : DataFrame) : list (string * Qc) :=
  groupby_sum Region TotalPrice view.

Definition sales_by_category_region (view : DataFrame)
  : list ((string * string) * Qc) :=
  groupby_sum (fun r => (Category r, Region r)) TotalPrice view.

Definition sales_by_category (view : DataFrame) : list (string * Qc) :=
  groupby_sum Category TotalPrice view.

Definition product_sales (view : DataFrame) : list (string * Qc) :=
  Pandas.nlargest 10 (groupby_sum Product TotalPrice view).

Definition quantity_by_product (view : DataFrame) : list (string * Z) :=
  Pandas.nlargest 10 (groupby_sum Product Quantity view).

(** [groupby('CustomerID').agg(TotalSpending=sum, OrderCount=nunique)]. *)
Definition customer_spending (view : DataFrame) : list (Z * (Qc * Z)) :=
  Pandas.agg
    (fun g => (Pandas.sum (map TotalPrice g),
               Pandas.nunique Z.eqb (map OrderID g)))
    (Pandas.groupby CustomerID view).

(** ** KPI formatting: the format spec [,.2f] *)

Module Format.

(** Nearest integer, exact halves to the even neighbour. *)
Definition round_half_even (q : Qc) : Z :=
  let n := Qnum q in
  let d := Zpos (Qden q) in
  let f := (n / d)%Z in
  match (2 * (n mod d) ?= d)%Z with
  | Lt => f
  | Gt => (f + 1)%Z
  | Eq => if Z.even f then f else (f + 1)%Z
  end.

Definition digits (n : Z) : list ascii :=
  list_ascii_of_string (NilZero.string_of_uint (N.to_uint (Z.to_N n))).

(** A comma after every third digit, on the digits least significant first;
    [k] digits have been written since the last comma. *)
Fixpoint group_thousands (rev_digits : list ascii) (k : nat) : list ascii :=
  match rev_digits with
  | [] => []
  | c :: rest =>
      if Nat.eqb k 3 then ","%char :: c :: group_thousands rest 1
      else c :: group_thousands rest (S k)
  end.

Definition with_commas (n : Z) : string :=
  string_of_list_ascii (rev (group_thousands (rev (digits n)) 0)).

Definition two_digits (n : Z) : string :=
  string_of_list_ascii
    (if (n <? 10)%Z then "0"%char :: digits n else digits n).

(** [f"{x:,.2f}"] for a finite [x]. *)
Definition comma_2f (q : Qc) : string :=
  let negative := match (q ?= 0)%Qc with Lt => true | _ => false end in
  let cents := round_half_even ((if negative then - q else q) * Q2Qc 100)%Qc in
  String.append (if negative then "-" else "")
    (String.append (with_commas (cents / 100))
       (String.append "." (two_digits (cents mod 100)))).

(** [f"${x:,.2f}"]. *)
Definition money (x : float64) : string :=
  match x with
  | NaN => "$nan"
  | Finite q => String.append "$" (comma_2f q)
  end.

End Format.

(** ** One pass of the script *)

(** What one pass hands to the three metrics and the ten charts. *)
Record Dashboard : Type := mkDashboard {
  metric_total_sales : string;
  metric_avg_order_value : string;
  metric_total_orders : Z;
  fig_daily_sales : list (Z * Qc);
  fig_trend_category : list ((Z * string) * Qc);
  fig_region_sales : list (string * Qc);
  fig_category_region : list ((string * string) * Qc);
  fig_category_sales : list (string * Qc);
  fig_product_sales : list (string * Qc);
  fig_quantity_product : list (string * Z);
  fig_customer : list (Z * (Qc * Z));
  fig_price_distribution : list Qc
}.

Definition render (view : DataFrame) : Dashboard :=
  {| metric_total_sales := Format.money (Finite (total_sales view));
     metric_avg_order_value := Format.money (avg_order_value view);
     metric_total_orders := total_orders view;
     fig_daily_sales := daily_sales view;
     fig_trend_category := sales_trend_category view;
     fig_region_sales := sales_by_region view;
     fig_category_region := sales_by_category_region view;
     fig_category_sales := sales_by_category view;
     fig_product_sales := product_sales view;
     fig_quantity_product := quantity_by_product view;
     fig_customer := customer_spending view;
     fig_price_distribution := map UnitPrice view |}.

(** What outlives a pass: the [st.cache_data] entry of [load_data] and the
    state of the two multiselect widgets ([None]: never touched). *)
Record Session : Type := mkSession {
  cache_data : option DataFrame;
  regions_widget : option (list string);
  categories_widget : option (list string)
}.

(** [@st.cache_data]: the body runs on the first call only. *)
Definition cached_load_data (rng : RandomState) (cache : option DataFrame)
  : DataFrame * option DataFrame :=
  match cache with
  | Some df => (df, cache)
  | None => let df := load_data rng in (df, Some df)
  end.

(** [st.multiselect(label, options, default)]: the default until the user
    picks, then the picked options. *)
Definition multiselect (options default : list string)
  (state : option (list string)) : list string :=
  match state with
  | None => default
  | Some picked => filter (Pandas.isin String.eqb options) picked
  end.

Definition script (rng : RandomState) (s : Session) : Session * Dashboard :=
  let (df, cache) := cached_load_data rng (cache_data s) in
  let region_values := Pandas.unique String.eqb (map Region df) in
  let category_values := Pandas.unique String.eqb (map Category df) in
  let regions := multiselect region_values region_values (regions_widget s) in
  let categories :=
    multiselect category_values category_values (categories_widget s) in
  ({| cache_data := cache;
      regions_widget := regions_widget s;
      categories_widget := categories_widget s |},
   render (df_filtered df regions categories)).

(** ** Vocabulary of the statements *)

(** The filter as the specification words it: walking down the table, a
    record is kept when its region is among the selected regions and its
    category among the selected categories, and is dropped otherwise. *)
Inductive selects (regions categories : list string)
  : DataFrame -> DataFrame -> Prop :=
| selects_nil : selects regions categories [] []
| selects_keep (r : Row) (df view : DataFrame) :
    In (Region r) regions -> In (Category r) categories ->
    selects regions categories df view ->
    selects regions categories (r :: df) (r :: view)
| selects_drop (r : Row) (df view : DataFrame) :
    ~ (In (Region r) regions /\ In (Category r) categories) ->
    selects regions categories df view ->
    selects regions categories (r :: df) view.

(** A sequence obtained from another by leaving entries out. *)
Inductive subseq {A : Type} : list A -> list A -> Prop :=
| subseq_nil : subseq [] []
| subseq_take (x : A) (s l : list A) : subseq s l -> subseq (x :: s) (x :: l)
| subseq_skip (x : A) (s l : list A) : subseq s l -> subseq s (x :: l).

Definition same_set {A : Type} (l1 l2 : list A) : Prop :=
  forall x, In x l1 <-> In x l2.

(** Quantity times unit price, the integer promoted to a float. *)
Definition quantity_times_unit_price (r : Row) : Qc :=
  (Q2Qc (inject_Z (Quantity r)) * UnitPrice r)%Qc.

(** The laws of a comparison: it decides equality and is a strict total
    order. *)
Class KeyLaws (K : Type) `{Key K} : Prop := {
  cmp_eq : forall a b : K, cmp a b = Eq <-> a = b;
  cmp_antisym : forall a b : K, cmp b a = CompOpp (cmp a b);
  cmp_trans : forall a b c : K, cmp a b = Lt -> cmp b c = Lt -> cmp a c = Lt
}.

(** The rows whose key is [k], in table order. *)
Definition rows_with {R K : Type} `{Key K} (key : R -> K) (k : K)
  (df : list R) : list R :=
  filter (fun r => match cmp (key r) k with Eq => true | _ => false end) df.

(** Every group holds the rows of its key. *)
Definition groups_hold {R K : Type} `{Key K} (key : R -> K) (df : list R)
  (gs : list (K * list R)) : Prop :=
  Forall (fun kg => snd kg = rows_with key (fst kg) df) gs.

(** A keyed series whose keys increase strictly. *)
Definition keys_ascending {K V : Type} `{Key K} (s : list (K * V)) : Prop :=
  StronglySorted (fun a b => cmp (fst a) (fst b) = Lt) s.

(** The order of a ranking: a larger value first and, between equal values,
    the smaller key first. *)
Definition ranked_before {K V : Type} `{Key K} `{Key V} (a b : K * V) : Prop :=
  cmp (snd a) (snd b) = Gt \/ (snd a = snd b /\ cmp (fst a) (fst b) = Lt).

(** The total price of product [p] over a view, and its quantity. *)
Definition product_total (view : DataFrame) (p : string) : Qc :=
  Pandas.sum (map TotalPrice (filter (fun r => String.eqb (Product r) p) view)).

Definition product_quantity (view : DataFrame) (p : string) : Z :=
  Pandas.sum (map Quantity (filter (fun r => String.eqb (Product r) p) view)).

(** The cache is empty or holds the table [load_data] builds: nothing has
    modified the dataset. *)
Definition cache_coherent (rng : RandomState) (s : Session) : Prop :=
  cache_data s = None \/ cache_data s = Some (load_data rng).

(** The two selections a pass reads from the widgets. *)
Definition selected_regions (rng : RandomState) (s : Session) : list string :=
  let options := Pandas.unique String.eqb (map Region (load_data rng)) in
  multiselect options options (regions_widget s).

Definition selected_categories (rng : RandomState) (s : Session)
  : list string :=
  let options := Pandas.unique String.eqb (map Category (load_data rng)) in
  multiselect options options (categories_widget s).

(** ** Sample data for the examples *)

Definition sample_row (id : Z) (day : Z) (region category product : string)
  (quantity : Z) (unit_price : Z) (customer : Z) : Row :=
  {| OrderID := id; Date := (day * ns_per_day)%Z;
     Region := region; Category := category; Product := product;
     Quantity := quantity; UnitPrice := Q2Qc (inject_Z unit_price);
     CustomerID := customer;
     TotalPrice :=
       (Q2Qc (inject_Z quantity) * Q2Qc (inject_Z unit_price))%Qc |}.

Definition sample_df : DataFrame :=
  [ sample_row 1 19358 "North" "Electronics" "Product_2" 2 10 100;
    sample_row 2 19358 "South" "Books" "Product_10" 1 20 101;
    sample_row 3 19359 "North" "Books" "Product_2" 3 10 100;
    sample_row 4 19359 "East" "Electronics" "Product_7" 5 10 102;
    sample_row 5 19360 "North" "Electronics" "Product_10" 3 10 101 ].

Definition sample_rng : RandomState :=
  fun i =>
    {| draw_date := i; draw_region := Nat.modulo i 5;
       draw_category := Nat.modulo i 4;
       draw_product := Z.of_nat (S (Nat.modulo i 50));
       draw_quantity := Z.of_nat (S (Nat.modulo i 9));
       draw_unit_price := Q2Qc (inject_Z (Z.of_nat (10 + Nat.modulo i 90)));
       draw_customer := Z.of_nat (100 + Nat.modulo i 400) |}.

(** Eleven products: sales fall from the first to the last while the
    quantities rise. *)
Definition sample_products : DataFrame :=
  [ sample_row 1 19358 "North" "Books" "P01" 1 1000 100;
    sample_row 2 19358 "North" "Books" "P02" 2 400 100;
    sample_row 3 19358 "North" "Books" "P03" 3 200 100;
    sample_row 4 19358 "North" "Books" "P04" 4 100 100;
    sample_row 5 19358 "North" "Books" "P05" 5 60 100;
    sample_row 6 19358 "North" "Books" "P06" 6 40 100;
    sample_row 7 19358 "North" "Books" "P07" 7 30 100;
    sample_row 8 19358 "North" "Books" "P08" 8 25 100;
    sample_row 9 19358 "North" "Books" "P09" 9 20 100;
    sample_row 10 19358 "North" "Books" "P10" 10 15 100;
    sample_row 11 19358 "North" "Books" "P11" 11 10 100 ].

(** ** The contract of the generator *)

(** What numpy promises of the values drawn for a row: a position inside
    the array for each [np.random.choice], [randint(1, 51)] for the product
    number, [randint(1, 10)] for the quantity, [uniform(10, 100)] for the
    unit price and [randint(100, 500)] for the customer. *)
Definition draw_in_range (d : Draw) : Prop :=
  (draw_date d < 731)%nat
  /\ (draw_region d < 5)%nat
  /\ (draw_category d < 4)%nat
  /\ (1 <= draw_product d < 51)%Z
  /\ (1 <= draw_quantity d < 10)%Z
  /\ (Q2Qc 10 <= draw_unit_price d)%Qc
  /\ (draw_unit_price d < Q2Qc 100)%Qc
  /\ (100 <= draw_customer d < 500)%Z.

Definition rng_in_range (rng : RandomState) : Prop :=
  forall i, draw_in_range (rng i).

(** A stream that keeps the contract. *)
Definition ranged_rng : RandomState :=
  fun i =>
    {| draw_date := Nat.modulo i 731; draw_region := Nat.modulo i 5;
       draw_category := Nat.modulo i 4;
       draw_product := Z.of_nat (S (Nat.modulo i 50));
       draw_quantity := Z.of_nat (S (Nat.modulo i 9));
       draw_unit_price := Q2Qc 25;
       draw_customer := Z.of_nat (100 + Nat.modulo i 400) |}.

(** A session nobody has touched: nothing cached, no widget used. *)
Definition fresh_session : Session :=
  {| cache_data := None; regions_widget := None; categories_widget := None |}.

(** The number of rows as a float, the divisor of [mean]. *)
Definition row_count (view : DataFrame) : Qc :=
  Q2Qc (inject_Z (Z.of_nat (List.length view))).

(** ** Sums record by record and in binary64 *)

(** The total price of a sequence of records, added up record by record
    from [acc]. *)
Fixpoint running_total (acc : Qc) (records : list Row) : Qc :=
  match records with
  | [] => acc
  | r :: rest => running_total (acc + TotalPrice r)%Qc rest
  end.








(** The position at which a value first occurs in a column. *)
Fixpoint first_position (x : string) (column : list string) : nat :=
  match column with
  | [] => 0
  | y :: rest => if String.eqb x y then 0 else S (first_position x rest)
  end.

(** * Properties *)

(** ** The model on the sample table *)

Example unique_keeps_first_appearance :
  Pandas.unique String.eqb (map Region sample_df) = ["North"; "South"; "East"].
Proof. reflexivity. Qed.

Example groupby_sorts_its_keys :
  map fst (sales_by_region sample_df) = ["East"; "North"; "South"]
  /\ map fst (sales_trend_category sample_df)
     = [(19358%Z, "Books"); (19358%Z, "Electronics"); (19359%Z, "Books");
        (19359%Z, "Electronics"); (19360%Z, "Electronics")].
Proof. split; reflexivity. Qed.

Example sample_kpis :
  metric_total_sales (render sample_df) = "$150.00"
  /\ metric_avg_order_value (render sample_df) = "$30.00"
  /\ metric_total_orders (render sample_df) = 5%Z.
Proof. repeat split; reflexivity. Qed.

Example comma_2f_examples :
  map Format.comma_2f
    [Q2Qc 0; Q2Qc 1234567.125; Q2Qc 999.995; Q2Qc 1000; Q2Qc (-12345.678)]
  = ["0.00"; "1,234,567.12"; "1,000.00"; "1,000.00"; "-12,345.68"].
Proof. reflexivity. Qed.

Example product_names :
  map (fun i => Product (load_row 1 (sample_rng i))) [0; 9; 49]%nat
  = ["Product_1"; "Product_10"; "Product_50"].
Proof. reflexivity. Qed.

Example rankings_of_sample_products :
  map fst (product_sales sample_products)
  = ["P01"; "P02"; "P03"; "P04"; "P05"; "P06"; "P07"; "P08"; "P09"; "P10"]
  /\ map fst (quantity_by_product sample_products)
     = ["P11"; "P10"; "P09"; "P08"; "P07"; "P06"; "P05"; "P04"; "P03"; "P02"].
Proof. split; reflexivity. Qed.

(** ** Membership, [unique] and [sum] *)

Lemma isin_In (values : list string) (x : string) :
  Pandas.isin String.eqb values x = true <-> In x values.
Proof.
  unfold Pandas.isin. rewrite existsb_exists. split.
  - intros [y [Hy Heq]]. apply String.eqb_eq in Heq. now subst.
  - intros Hx. exists x. split; [assumption | apply String.eqb_refl].
Qed.

Lemma mask_true (regions categories : list string) (r : Row) :
  mask regions categories r = true
  <-> In (Region r) regions /\ In (Category r) categories.
Proof.
  unfold mask. now rewrite andb_true_iff, !isin_In.
Qed.

Section UniqueFacts.
Context {A : Type} (eqb : A -> A -> bool).
Hypothesis eqb_spec : forall x y, eqb x y = true <-> x = y.

Lemma unique_In (l : list A) (x : A) : In x (Pandas.unique eqb l) <-> In x l.
Proof using eqb_spec.
  induction l as [|y l IH]; simpl; [tauto|].
  rewrite filter_In, IH. split.
  - intros [Hy | [Hx _]]; auto.
  - intros [Hy | Hx]; [now left|].
    destruct (eqb y x) eqn:E.
    + left. now apply eqb_spec.
    + right. now split.
Qed.

Lemma unique_of_NoDup (l : list A) : NoDup l -> Pandas.unique eqb l = l.
Proof using eqb_spec.
  induction 1 as [|x l Hx Hl IH]; simpl; [reflexivity|].
  rewrite IH. f_equal.
  apply forallb_filter_id, forallb_forall. intros y Hy.
  destruct (eqb x y) eqn:E; [|reflexivity].
  apply eqb_spec in E. now subst.
Qed.

Lemma unique_NoDup (l : list A) : NoDup (Pandas.unique eqb l).
Proof using eqb_spec.
  induction l as [|x l IH]; simpl; constructor.
  - rewrite filter_In. intros [_ Hx].
    assert (eqb x x = true) as E by now apply eqb_spec.
    now rewrite E in Hx.
  - now apply NoDup_filter.
Qed.
End UniqueFacts.

Lemma sum_Qc_nil : Pandas.sum (@nil Qc) = 0%Qc.
Proof. reflexivity. Qed.

Lemma sum_Qc_cons (x : Qc) (xs : list Qc) :
  Pandas.sum (x :: xs) = (x + Pandas.sum xs)%Qc.
Proof.
  unfold Pandas.sum. simpl.
  assert (forall a : Qc, fold_left Qcplus xs a = (a + fold_left Qcplus xs 0)%Qc)
    as Hacc.
  { induction xs as [|y ys IH]; intros a; simpl.
    - ring.
    - rewrite (IH (a + y)%Qc), (IH (0 + y)%Qc). ring. }
  rewrite (Hacc (0 + x)%Qc). ring.
Qed.


Lemma sum_Z_cons (x : Z) (xs : list Z) :
  Pandas.sum (x :: xs) = (x + Pandas.sum xs)%Z.
Proof.
  unfold Pandas.sum. simpl.
  assert (forall a : Z, fold_left Z.add xs a = (a + fold_left Z.add xs 0)%Z)
    as Hacc.
  { induction xs as [|y ys IH]; intros a; simpl.
    - lia.
    - rewrite (IH (a + y)%Z), (IH y). lia. }
  rewrite (Hacc x). reflexivity.
Qed.

Lemma sum_Z_app (xs ys : list Z) :
  Pandas.sum (xs ++ ys) = (Pandas.sum xs + Pandas.sum ys)%Z.
Proof.
  induction xs as [|x xs IH]; simpl.
  - reflexivity.
  - rewrite !sum_Z_cons, IH. lia.
Qed.

(** ** The filter *)

Lemma df_filtered_In (df : DataFrame) (regions categories : list string)
  (r : Row) :
  In r (df_filtered df regions categories)
  <-> In r df /\ In (Region r) regions /\ In (Category r) categories.
Proof.
  unfold df_filtered. now rewrite filter_In, mask_true.
Qed.

Lemma df_filtered_subseq (df : DataFrame) (regions categories : list string) :
  subseq (df_filtered df regions categories) df.
Proof.
  unfold df_filtered.
  induction df as [|r df IH]; simpl.
  - constructor.
  - destruct (mask regions categories r); now constructor.
Qed.

Lemma subseq_length {A : Type} (s l : list A) :
  subseq s l -> (List.length s <= List.length l)%nat.
Proof.
  induction 1; simpl; lia.
Qed.

Lemma subseq_In {A : Type} (s l : list A) (x : A) :
  subseq s l -> In x s -> In x l.
Proof.
  induction 1; simpl; intuition.
Qed.

Lemma selects_df_filtered (df : DataFrame) (regions categories : list string) :
  selects regions categories df (df_filtered df regions categories).
Proof.
  unfold df_filtered.
  induction df as [|r df IH]; simpl.
  - constructor.
  - destruct (mask regions categories r) eqn:E.
    + apply mask_true in E. destruct E. now constructor.
    + constructor; [|assumption].
      intros Hm. apply mask_true in Hm. congruence.
Qed.

Lemma selects_functional (regions categories : list string)
  (df view : DataFrame) :
  selects regions categories df view ->
  view = df_filtered df regions categories.
Proof.
  unfold df_filtered.
  induction 1 as [|r df view Hr Hc _ IH|r df view Hn _ IH]; simpl.
  - reflexivity.
  - assert (mask regions categories r = true) as E by now apply mask_true.
    rewrite E. now f_equal.
  - destruct (mask regions categories r) eqn:E; [|assumption].
    apply mask_true in E. contradiction.
Qed.

Lemma df_filtered_all (df : DataFrame) (regions categories : list string) :
  (forall r, In r df -> In (Region r) regions) ->
  (forall r, In r df -> In (Category r) categories) ->
  df_filtered df regions categories = df.
Proof.
  intros Hr Hc. unfold df_filtered.
  apply forallb_filter_id, forallb_forall. intros r Hin.
  apply mask_true. auto.
Qed.

Lemma filter_keeps_column_distinct {Rec Col : Type} (keep : Rec -> bool)
  (column : Rec -> Col) (rows : list Rec)
  (Hdistinct : NoDup (map column rows)) :
  NoDup (map column (filter keep rows)).
Proof.
  induction rows as [|x rows IH]; simpl in *; [assumption|].
  inversion Hdistinct as [|? ? Hx Hrest]; subst.
  destruct (keep x); simpl; [|auto].
  constructor; [|auto].
  intros Hin. apply Hx.
  apply in_map_iff in Hin. destruct Hin as [y [Hy Hin]].
  apply filter_In in Hin. apply in_map_iff. exists y. tauto.
Qed.

(** ** The generated table *)

Lemma load_data_OrderID (rng : RandomState) :
  map OrderID (load_data rng) = map (fun i => Z.of_nat (S i)) (seq 0 n_rows).
Proof.
  unfold load_data. rewrite map_map. reflexivity.
Qed.

Lemma load_data_OrderID_NoDup (rng : RandomState) :
  NoDup (map OrderID (load_data rng)).
Proof.
  rewrite load_data_OrderID.
  apply Injective_map_NoDup; [|apply seq_NoDup].
  intros i j Hij. lia.
Qed.

Lemma load_data_total_price (rng : RandomState) (r : Row) :
  In r (load_data rng) -> TotalPrice r = quantity_times_unit_price r.
Proof.
  unfold load_data. rewrite in_map_iff.
  intros [i [Hr _]]. subst r. reflexivity.
Qed.

Lemma df_filtered_empty_selection (df : DataFrame)
  (regions categories : list string) :
  regions = [] \/ categories = [] -> df_filtered df regions categories = [].
Proof.
  intros Hempty. unfold df_filtered.
  induction df as [|r df IH]; simpl; [reflexivity|].
  assert (mask regions categories r = false) as E.
  { unfold mask. destruct Hempty; subst; simpl.
    - reflexivity.
    - apply andb_false_r. }
  now rewrite E.
Qed.

(** ** Claims about the filter and the KPIs *)

(** C1, as the script behaves: when one of the two selections is empty the
    filtered view has no row, total sales are 0 (shown as "$0.00") and the
    number of orders is 0, while the average order value is NaN and is shown
    as "$nan"; every KPI is a total function, so none raises. *)
Theorem C1_empty_selection_kpis (df : DataFrame)
  (regions categories : list string) :
  regions = [] \/ categories = [] ->
  let view := df_filtered df regions categories in
  view = []
  /\ total_sales view = 0%Qc
  /\ total_orders view = 0%Z
  /\ avg_order_value view = NaN
  /\ metric_total_sales (render view) = "$0.00"
  /\ metric_avg_order_value (render view) = "$nan"
  /\ metric_total_orders (render view) = 0%Z.
Proof.
  intros Hempty view.
  assert (view = []) as Hview
    by (subst view; now apply df_filtered_empty_selection).
  rewrite Hview. repeat split; vm_compute; reflexivity.
Qed.

Lemma C1_empty_selection_kpis_witness :
  metric_avg_order_value
    (render (df_filtered sample_df [] ["Electronics"; "Books"])) = "$nan".
Proof.
  apply (C1_empty_selection_kpis sample_df [] ["Electronics"; "Books"]).
  left. reflexivity.
Defined.

(** C1 as stated fails: with no region selected the mean over the zero rows
    of the view is NaN, not zero, and the metric shows "$nan". *)
Lemma C1_mean_of_empty_view_is_nan :
  let view := df_filtered sample_df [] ["Electronics"; "Books"] in
  view = []
  /\ avg_order_value view = NaN
  /\ avg_order_value view <> Finite 0%Qc
  /\ metric_avg_order_value (render view) = "$nan".
Proof.
  repeat split; try (vm_compute; reflexivity).
  vm_compute. discriminate.
Qed.

Lemma fold_left_running_total (records : list Row) (acc : Qc) :
  fold_left Qcplus (map TotalPrice records) acc = running_total acc records.
Proof.
  revert acc. induction records as [|r rest IH]; intros acc; simpl.
  - reflexivity.
  - apply IH.
Qed.

Lemma total_sales_running_total (view : DataFrame) :
  total_sales view = running_total 0%Qc view.
Proof.
  unfold total_sales, Pandas.sum. apply fold_left_running_total.
Qed.

(** C2: the filter returns exactly the subsequence of the records whose
    region is selected and whose category is selected; with North and
    Electronics selected every record of the view is a North / Electronics
    record; and the total-sales KPI is the total price added up, record by
    record from zero, over the records that the selection keeps, and over
    no other. *)
Theorem C2_filter_is_exact_selection (df : DataFrame)
  (regions categories : list string) :
  let view := df_filtered df regions categories in
  (forall v, selects regions categories df v <-> v = view)
  /\ subseq view df
  /\ (forall r,
        In r view
        <-> In r df /\ In (Region r) regions /\ In (Category r) categories)
  /\ Forall (fun r => Region r = "North" /\ Category r = "Electronics")
       (df_filtered df ["North"] ["Electronics"])
  /\ total_sales view
     = Pandas.sum
         (map (fun r =>
                 if mask regions categories r then TotalPrice r else 0%Qc)
            df)
  /\ (forall v, selects regions categories df v ->
                total_sales view = running_total 0%Qc v).
Proof.
  intros view. subst view.
  split; [|split; [|split; [|split; [|split]]]];
    [| | | | |intros v Hv; apply selects_functional in Hv; subst v;
               apply total_sales_running_total].
  - intros v. split.
    + apply selects_functional.
    + intros ->. apply selects_df_filtered.
  - apply df_filtered_subseq.
  - intros r. apply df_filtered_In.
  - apply Forall_forall. intros r Hr.
    apply df_filtered_In in Hr. simpl in Hr. intuition.
  - unfold total_sales, df_filtered.
    induction df as [|r df IH]; simpl; [reflexivity|].
    rewrite sum_Qc_cons, <- IH.
    destruct (mask regions categories r); simpl.
    + now rewrite sum_Qc_cons.
    + ring.
Qed.

Lemma C2_filter_is_exact_selection_witness :
  map OrderID (df_filtered sample_df ["North"] ["Electronics"]) = [1%Z; 5%Z]
  /\ In (nth 0 sample_df (sample_row 0 0 "" "" "" 0 0 0))
       (df_filtered sample_df ["North"] ["Electronics"]).
Proof.
  split; [reflexivity|].
  apply (C2_filter_is_exact_selection sample_df ["North"] ["Electronics"]).
  simpl. tauto.
Defined.

(** C3: a filtered view adds no row (it is a subsequence of the table, so
    each of its records is one of the table's); and when both selections are
    the full domains observed in the table the view is the table itself, so
    the three KPIs over the view are those over the unfiltered table. *)
Theorem C3_view_is_subset_and_full_selection_is_identity (df : DataFrame)
  (regions categories : list string) :
  let view := df_filtered df regions categories in
  subseq view df
  /\ incl view df
  /\ (List.length view <= List.length df)%nat
  /\ (same_set regions (Pandas.unique String.eqb (map Region df)) ->
      same_set categories (Pandas.unique String.eqb (map Category df)) ->
      view = df
      /\ total_sales view = total_sales df
      /\ avg_order_value view = avg_order_value df
      /\ total_orders view = total_orders df).
Proof.
  intros view. subst view.
  pose proof (df_filtered_subseq df regions categories) as Hsub.
  split; [assumption|]. split; [|split].
  - intros r. now apply subseq_In.
  - now apply subseq_length.
  - intros Hr Hc.
    assert (df_filtered df regions categories = df) as ->; [|now repeat split].
    apply df_filtered_all; intros r Hin.
    + apply Hr, (unique_In String.eqb String.eqb_eq), in_map, Hin.
    + apply Hc, (unique_In String.eqb String.eqb_eq), in_map, Hin.
Qed.

Lemma C3_view_is_subset_and_full_selection_is_identity_witness :
  df_filtered sample_df ["East"; "South"; "North"] ["Books"; "Electronics"]
  = sample_df.
Proof.
  apply (C3_view_is_subset_and_full_selection_is_identity sample_df
           ["East"; "South"; "North"] ["Books"; "Electronics"]).
  - intros x. simpl. tauto.
  - intros x. simpl. tauto.
Defined.

(** C4: every record of a filtered view of the generated table has a total
    price equal to its quantity times its unit price, and is, field for
    field, a record of the table: filtering selects rows and changes none. *)
Theorem C4_total_price_is_quantity_times_unit_price (rng : RandomState)
  (regions categories : list string) (r : Row) :
  In r (df_filtered (load_data rng) regions categories) ->
  TotalPrice r = (Q2Qc (inject_Z (Quantity r)) * UnitPrice r)%Qc
  /\ In r (load_data rng).
Proof.
  intros Hin. apply df_filtered_In in Hin. destruct Hin as [Hin _].
  split; [|assumption].
  now apply (load_data_total_price rng).
Qed.

Lemma C4_total_price_is_quantity_times_unit_price_witness :
  In (load_row 1 (sample_rng 0))
    (df_filtered (load_data sample_rng) ["North"] ["Electronics"])
  /\ TotalPrice (load_row 1 (sample_rng 0))
     = quantity_times_unit_price (load_row 1 (sample_rng 0)).
Proof.
  assert (In (load_row 1 (sample_rng 0))
            (df_filtered (load_data sample_rng) ["North"] ["Electronics"]))
    as Hin.
  { apply df_filtered_In. split; [|simpl; tauto].
    unfold load_data. apply in_map_iff. exists 0%nat.
    split; [reflexivity|]. apply in_seq. unfold n_rows. lia. }
  split; [exact Hin|].
  apply (C4_total_price_is_quantity_times_unit_price sample_rng
           ["North"] ["Electronics"] _ Hin).
Defined.

(** C9: on any filtered view of the generated table the Total Orders KPI,
    the number of distinct order identifiers, is the number of rows of the
    view, because [load_data] numbers the rows 1, 2, ..., one identifier per
    row; on the empty view both are zero. *)
Theorem C9_total_orders_is_row_count (rng : RandomState)
  (regions categories : list string) :
  total_orders (df_filtered (load_data rng) regions categories)
  = Z.of_nat (List.length (df_filtered (load_data rng) regions categories))
  /\ NoDup (map OrderID (load_data rng))
  /\ map OrderID (load_data rng) = map Z.of_nat (seq 1 n_rows)
  /\ total_orders (df_filtered (load_data rng) [] categories) = 0%Z
  /\ total_orders (df_filtered (load_data rng) regions []) = 0%Z.
Proof.
  split; [|split; [|split; [|split]]].
  - unfold total_orders, Pandas.nunique, df_filtered.
    rewrite (unique_of_NoDup Z.eqb Z.eqb_eq).
    + now rewrite length_map.
    + apply filter_keeps_column_distinct, load_data_OrderID_NoDup.
  - apply load_data_OrderID_NoDup.
  - rewrite load_data_OrderID, <- seq_shift, map_map. reflexivity.
  - rewrite df_filtered_empty_selection; [reflexivity | now left].
  - rewrite df_filtered_empty_selection; [reflexivity | now right].
Qed.

(** ** Comparisons *)

#[export] Instance KeyLaws_string : KeyLaws string.
Proof.
  split.
  - apply String_as_OT.cmp_eq.
  - intros a b. apply String.compare_antisym.
  - intros a b c Hab Hbc. apply String_as_OT.cmp_lt.
    apply String_as_OT.lt_trans with b; now apply String_as_OT.cmp_lt.
Qed.

#[export] Instance KeyLaws_Z : KeyLaws Z.
Proof.
  split.
  - apply Z.compare_eq_iff.
  - intros a b. apply Z.compare_antisym.
  - intros a b c. simpl. rewrite !Z.compare_lt_iff. lia.
Qed.

#[export] Instance KeyLaws_Qc : KeyLaws Qc.
Proof.
  split.
  - intros a b. symmetry. apply Qceq_alt.
  - intros a b. simpl. unfold Qccompare. symmetry. apply Qcompare_antisym.
  - intros a b c. simpl. rewrite <- !Qclt_alt. apply Qclt_trans.
Qed.

Section KeyFacts.
Context {K : Type} `{KeyLaws K}.

Lemma cmp_refl (a : K) : cmp a a = Eq.
Proof. now apply cmp_eq. Qed.

Lemma cmp_gt_lt (a b : K) : cmp a b = Gt <-> cmp b a = Lt.
Proof.
  rewrite (cmp_antisym a b). destruct (cmp a b); simpl; split; congruence.
Qed.

Lemma cmp_lt_neq (a b : K) : cmp a b = Lt -> a <> b.
Proof.
  intros Hlt ->. rewrite cmp_refl in Hlt. discriminate.
Qed.
End KeyFacts.

#[export] Instance KeyLaws_pair {A B : Type} `{KeyLaws A} `{KeyLaws B}
  : KeyLaws (A * B).
Proof.
  split.
  - intros [a1 b1] [a2 b2]. simpl. split.
    + destruct (cmp a1 a2) eqn:Ea; try discriminate.
      intros Eb. apply cmp_eq in Ea, Eb. congruence.
    + intros Heq. inversion Heq; subst. now rewrite !cmp_refl.
  - intros [a1 b1] [a2 b2]. simpl.
    rewrite (cmp_antisym a1 a2).
    destruct (cmp a1 a2); simpl; [apply cmp_antisym | reflexivity..].
  - intros [a1 b1] [a2 b2] [a3 b3]. simpl.
    destruct (cmp a1 a2) eqn:E12; try discriminate;
      destruct (cmp a2 a3) eqn:E23; try discriminate; intros H12 H23.
    + apply cmp_eq in E12, E23. subst. rewrite cmp_refl.
      now apply cmp_trans with b2.
    + apply cmp_eq in E12. subst. now rewrite E23.
    + apply cmp_eq in E23. subst. now rewrite E12.
    + now rewrite (cmp_trans _ _ _ E12 E23).
Qed.

(** ** [groupby] *)

Section GroupByFacts.
Context {R K : Type} `{KeyLaws K} (key : R -> K).

Lemma rows_with_snoc (k : K) (df : list R) (r : R) :
  rows_with key k (df ++ [r])
  = rows_with key k df
    ++ (match cmp (key r) k with Eq => [r] | _ => [] end).
Proof.
  unfold rows_with. rewrite filter_app. simpl.
  now destruct (cmp (key r) k).
Qed.

Lemma rows_with_In (k : K) (df : list R) (r : R) :
  In r (rows_with key k df) <-> In r df /\ key r = k.
Proof.
  unfold rows_with. rewrite filter_In.
  destruct (cmp (key r) k) eqn:E.
  - apply cmp_eq in E. tauto.
  - split; [intros [_ Hf]; discriminate|].
    intros [_ Hk]. subst. now rewrite cmp_refl in E.
  - split; [intros [_ Hf]; discriminate|].
    intros [_ Hk]. subst. now rewrite cmp_refl in E.
Qed.

Lemma group_insert_keys (k : K) (r : R) (gs : list (K * list R)) (k' : K) :
  In k' (map fst (Pandas.group_insert k r gs))
  <-> k' = k \/ In k' (map fst gs).
Proof.
  induction gs as [|[k1 g1] gs IH]; simpl.
  - intuition.
  - destruct (cmp k k1) eqn:E; simpl.
    + apply cmp_eq in E. subst. intuition.
    + intuition.
    + rewrite IH. intuition.
Qed.

Lemma group_insert_Forall (P : K -> Prop) (k : K) (r : R)
  (gs : list (K * list R)) :
  P k -> Forall (fun b => P (fst b)) gs ->
  Forall (fun b => P (fst b)) (Pandas.group_insert k r gs).
Proof.
  intros Hk. induction gs as [|[k1 g1] gs IH]; simpl; intros Hall.
  - now repeat constructor.
  - inversion Hall; subst.
    destruct (cmp k k1); constructor; simpl; auto.
Qed.

Lemma group_insert_ascending (k : K) (r : R) (gs : list (K * list R)) :
  keys_ascending gs -> keys_ascending (Pandas.group_insert k r gs).
Proof.
  unfold keys_ascending.
  induction gs as [|[k1 g1] gs IH]; simpl; intros Hs.
  - repeat constructor.
  - apply StronglySorted_inv in Hs. destruct Hs as [Hs Hall].
    destruct (cmp k k1) eqn:E.
    + now constructor.
    + constructor; [now constructor|].
      constructor; [exact E|].
      eapply Forall_impl; [|exact Hall].
      intros b Hb. simpl in *. now apply cmp_trans with k1.
    + constructor; [now apply IH|].
      apply (group_insert_Forall (fun x => cmp k1 x = Lt)); [|assumption].
      now apply cmp_gt_lt.
Qed.

Lemma keys_ascending_head_notin (k1 : K) (g1 : list R)
  (gs : list (K * list R)) (k : K) :
  keys_ascending ((k1, g1) :: gs) ->
  cmp k k1 = Lt \/ k = k1 ->
  Forall (fun b => cmp k (fst b) = Lt) gs.
Proof.
  intros Hs Hk. apply StronglySorted_inv in Hs. destruct Hs as [_ Hall].
  eapply Forall_impl; [|exact Hall].
  intros b Hb. simpl in Hb. destruct Hk as [Hlt | ->]; [|assumption].
  now apply cmp_trans with k1.
Qed.

Lemma groups_hold_other (df : list R) (r : R) (gs : list (K * list R)) :
  Forall (fun b => key r <> fst b) gs ->
  groups_hold key df gs -> groups_hold key (df ++ [r]) gs.
Proof.
  unfold groups_hold. intros Hne Hold.
  rewrite Forall_forall in *. intros kg Hin.
  rewrite rows_with_snoc, (Hold kg Hin).
  destruct (cmp (key r) (fst kg)) eqn:E; try now rewrite app_nil_r.
  apply cmp_eq in E. now apply Hne in Hin.
Qed.

Lemma group_insert_holds (df : list R) (r : R) (gs : list (K * list R)) :
  keys_ascending gs ->
  groups_hold key df gs ->
  rows_with key (key r) df = [] \/ In (key r) (map fst gs) ->
  groups_hold key (df ++ [r]) (Pandas.group_insert (key r) r gs).
Proof.
  induction gs as [|[k1 g1] gs IH]; simpl; intros Hs Hold Hnew.
  - constructor; [|constructor]. simpl.
    rewrite rows_with_snoc, cmp_refl.
    destruct Hnew as [-> | []]. reflexivity.
  - pose proof Hs as Hs'. apply StronglySorted_inv in Hs'.
    destruct Hs' as [Hs' Hall].
    inversion Hold as [|? ? Hg1 Hold']; subst. simpl in Hg1.
    destruct (cmp (key r) k1) eqn:E.
    + apply cmp_eq in E.
      constructor; simpl.
      * rewrite rows_with_snoc, E, cmp_refl. now rewrite Hg1.
      * apply groups_hold_other; [|assumption].
        eapply Forall_impl; [|exact Hall].
        intros b Hb. simpl in Hb. rewrite E. now apply cmp_lt_neq.
    + assert (Forall (fun b => cmp (key r) (fst b) = Lt) ((k1, g1) :: gs))
        as Hlt.
      { constructor; [exact E|].
        apply (keys_ascending_head_notin k1 g1); [assumption | now left]. }
      constructor; simpl.
      * rewrite rows_with_snoc, cmp_refl.
        destruct Hnew as [-> | Hin]; [reflexivity|].
        exfalso. rewrite Forall_forall in Hlt.
        change (In (key r) (map fst ((k1, g1) :: gs))) in Hin.
        apply in_map_iff in Hin. destruct Hin as [b [Hb Hin]].
        apply Hlt in Hin. rewrite Hb, cmp_refl in Hin. discriminate.
      * apply groups_hold_other; [|assumption].
        eapply Forall_impl; [|exact Hlt].
        intros b Hb. now apply cmp_lt_neq.
    + constructor; simpl.
      * rewrite rows_with_snoc, E, app_nil_r. exact Hg1.
      * apply IH; [assumption..|].
        destruct Hnew as [Hnil | [Hk | Hin]]; [now left | | now right].
        subst k1. rewrite cmp_refl in E. discriminate.
Qed.

Lemma groupby_fold (df df0 : list R) (gs : list (K * list R)) :
  keys_ascending gs ->
  groups_hold key df0 gs ->
  (forall r, In r df0 -> In (key r) (map fst gs)) ->
  let gs' := fold_left (fun gs r => Pandas.group_insert (key r) r gs) df gs
  in keys_ascending gs'
     /\ groups_hold key (df0 ++ df) gs'
     /\ (forall k, In k (map fst gs')
                   <-> In k (map fst gs) \/ exists r, In r df /\ key r = k).
Proof.
  revert df0 gs.
  induction df as [|r df IH]; simpl; intros df0 gs Hs Hold Hall.
  - rewrite app_nil_r. repeat split; auto.
    + intros [Hk | [r [[] _]]]. assumption.
  - specialize (IH (df0 ++ [r]) (Pandas.group_insert (key r) r gs)).
    destruct IH as [IHs [IHold IHkeys]].
    + now apply group_insert_ascending.
    + apply group_insert_holds; [assumption..|].
      destruct (rows_with key (key r) df0) as [|r' l] eqn:E; [now left|].
      right. assert (In r' (rows_with key (key r) df0)) as Hin
        by (rewrite E; now left).
      apply rows_with_In in Hin. destruct Hin as [Hin Hk].
      rewrite <- Hk. now apply Hall.
    + intros r' Hin. apply group_insert_keys.
      apply in_app_or in Hin. destruct Hin as [Hin | [<- | []]]; auto.
    + rewrite <- app_assoc in IHold. simpl in IHold.
      split; [assumption|]. split; [assumption|].
      intros k. rewrite IHkeys, group_insert_keys. split.
      * intros [[-> | Hk] | [r' [Hin Hk]]]; eauto.
      * intros [Hk | [r' [[<- | Hin] Hk]]]; eauto.
Qed.

(** The groups of [groupby]: keys strictly ascending, one group per key
    that occurs, each holding exactly the rows of its key. *)
Lemma groupby_spec (df : list R) :
  keys_ascending (Pandas.groupby key df)
  /\ groups_hold key df (Pandas.groupby key df)
  /\ (forall k, In k (map fst (Pandas.groupby key df))
                <-> exists r, In r df /\ key r = k).
Proof.
  destruct (groupby_fold df [] []) as [Hs [Hold Hkeys]].
  - constructor.
  - constructor.
  - intros r [].
  - split; [assumption|]. split; [assumption|].
    intros k. rewrite (Hkeys k). simpl. tauto.
Qed.
End GroupByFacts.

Section AggFacts.
Context {R K V : Type} `{KeyLaws K} (f : list R -> V).

Lemma agg_keys (gs : list (K * list R)) :
  map fst (Pandas.agg f gs) = map fst gs.
Proof.
  unfold Pandas.agg. rewrite map_map. reflexivity.
Qed.

Lemma agg_In (gs : list (K * list R)) (k : K) (v : V) :
  In (k, v) (Pandas.agg f gs) <-> exists g, In (k, g) gs /\ v = f g.
Proof.
  unfold Pandas.agg. rewrite in_map_iff. split.
  - intros [[k' g] [Heq Hin]]. simpl in Heq. inversion Heq; subst. eauto.
  - intros [g [Hin ->]]. now exists (k, g).
Qed.

Lemma agg_ascending (gs : list (K * list R)) :
  keys_ascending gs -> keys_ascending (Pandas.agg f gs).
Proof.
  unfold keys_ascending, Pandas.agg.
  induction 1 as [|kg gs Hs IH Hall]; simpl; constructor; [assumption|].
  apply Forall_map. exact Hall.
Qed.
End AggFacts.

Lemma keys_ascending_NoDup {K V : Type} `{KeyLaws K} (s : list (K * V)) :
  keys_ascending s -> NoDup (map fst s).
Proof.
  unfold keys_ascending.
  induction 1 as [|kv s Hs IH Hall]; simpl; constructor; [|assumption].
  intros Hin. apply in_map_iff in Hin. destruct Hin as [b [Hb Hin]].
  rewrite Forall_forall in Hall. apply Hall in Hin.
  rewrite Hb, cmp_refl in Hin. discriminate.
Qed.

Lemma rows_with_filter {R K : Type} `{KeyLaws K} (key : R -> K) (k : K)
  (p : R -> bool) (df : list R) :
  (forall r, p r = true <-> key r = k) ->
  rows_with key k df = filter p df.
Proof.
  intros Hp. unfold rows_with. apply filter_ext. intros r.
  destruct (cmp (key r) k) eqn:E.
  - symmetry. now apply Hp, cmp_eq.
  - destruct (p r) eqn:Ep; [|reflexivity].
    apply Hp in Ep. rewrite Ep, cmp_refl in E. discriminate.
  - destruct (p r) eqn:Ep; [|reflexivity].
    apply Hp in Ep. rewrite Ep, cmp_refl in E. discriminate.
Qed.

(** What [groupby(key)[col].sum()] returns: keys strictly ascending, hence
    distinct; a key is listed exactly when some row carries it; its value
    is the sum of the column over the rows that carry it. *)
Lemma groupby_sum_spec {K V : Type} `{KeyLaws K} `{Dtype V}
  (key : Row -> K) (col : Row -> V) (view : DataFrame) :
  keys_ascending (groupby_sum key col view)
  /\ NoDup (map fst (groupby_sum key col view))
  /\ (forall k, In k (map fst (groupby_sum key col view))
                <-> exists r, In r view /\ key r = k)
  /\ (forall k v, In (k, v) (groupby_sum key col view) ->
                  v = Pandas.sum (map col (rows_with key k view))).
Proof.
  unfold groupby_sum.
  destruct (groupby_spec key view) as [Hs [Hold Hkeys]].
  assert (keys_ascending
            (Pandas.agg (column_sum col) (Pandas.groupby key view))) as Hasc
    by now apply agg_ascending.
  split; [assumption|]. split; [now apply keys_ascending_NoDup|]. split.
  - intros k. rewrite agg_keys. apply Hkeys.
  - intros k v Hin. apply agg_In in Hin. destruct Hin as [g [Hin ->]].
    unfold groups_hold in Hold. rewrite Forall_forall in Hold.
    apply Hold in Hin. simpl in Hin. now rewrite Hin.
Qed.

Section GroupTotals.
Context {K : Type} `{Key K} (key : Row -> K) (col : Row -> Qc).



End GroupTotals.

Lemma group_insert_sizes {R K : Type} `{Key K} (k : K) (r : R)
  (gs : list (K * list R)) :
  list_sum (map (fun kg => List.length (snd kg)) (Pandas.group_insert k r gs))
  = S (list_sum (map (fun kg => List.length (snd kg)) gs)).
Proof.
  induction gs as [|[k1 g1] gs IH]; simpl; [reflexivity|].
  destruct (cmp k k1); simpl.
  - rewrite length_app. simpl. lia.
  - reflexivity.
  - rewrite IH. lia.
Qed.

Lemma groupby_sizes {R K : Type} `{Key K} (key : R -> K) (df : list R) :
  list_sum (map (fun kg => List.length (snd kg)) (Pandas.groupby key df))
  = List.length df.
Proof.
  unfold Pandas.groupby.
  assert (forall gs,
             list_sum
               (map (fun kg => List.length (snd kg))
                  (fold_left (fun gs r => Pandas.group_insert (key r) r gs)
                     df gs))
             = (list_sum (map (fun kg => List.length (snd kg)) gs)
                + List.length df)%nat) as Hfold.
  { induction df as [|r df IH]; intros gs; simpl; [lia|].
    rewrite IH, group_insert_sizes. lia. }
  now rewrite Hfold.
Qed.

(** ** Claims about the group-by aggregations *)



(** C8: the region aggregation of a filtered view lists each region once,
    and lists a region exactly when the view has a row of that region, with
    the sum of total price over these rows: a region without rows has no
    entry rather than a zero entry.  Likewise the (date, category)
    aggregation has an entry for a date and a category exactly when the view
    has a row of that category on that date. *)
Theorem C8_groups_exist_only_for_keys_present (df : DataFrame)
  (regions categories : list string) :
  let view := df_filtered df regions categories in
  (NoDup (map fst (sales_by_region view))
   /\ (forall k, In k (map fst (sales_by_region view))
                 <-> exists r, In r view /\ Region r = k)
   /\ (forall k v, In (k, v) (sales_by_region view) ->
         v = Pandas.sum
               (map TotalPrice
                  (filter (fun r => String.eqb (Region r) k) view))))
  /\ (NoDup (map fst (sales_trend_category view))
      /\ (forall d c, In (d, c) (map fst (sales_trend_category view))
                      <-> exists r, In r view
                                    /\ dt_date (Date r) = d /\ Category r = c)
      /\ (forall d c v, In ((d, c), v) (sales_trend_category view) ->
            v = Pandas.sum
                  (map TotalPrice
                     (filter (fun r => Z.eqb (dt_date (Date r)) d
                                       && String.eqb (Category r) c) view)))).
Proof.
  intros view. split.
  - destruct (groupby_sum_spec Region TotalPrice view)
      as [_ [Hnd [Hkeys Hval]]].
    split; [exact Hnd|]. split; [exact Hkeys|].
    intros k v Hin. rewrite (Hval k v Hin).
    rewrite (rows_with_filter Region k (fun r => String.eqb (Region r) k));
      [reflexivity|].
    intros r. apply String.eqb_eq.
  - destruct (groupby_sum_spec (fun r => (dt_date (Date r), Category r))
                TotalPrice view) as [_ [Hnd [Hkeys Hval]]].
    split; [exact Hnd|]. split.
    + intros d c. unfold sales_trend_category. rewrite (Hkeys (d, c)).
      split; intros [r [Hin Hk]]; exists r.
      * inversion Hk. auto.
      * destruct Hk as [-> ->]. auto.
    + intros d c v Hin. unfold sales_trend_category in Hin.
      rewrite (Hval (d, c) v Hin).
      rewrite (rows_with_filter _ (d, c)
                 (fun r => Z.eqb (dt_date (Date r)) d
                           && String.eqb (Category r) c));
        [reflexivity|].
      intros r. rewrite andb_true_iff, Z.eqb_eq, String.eqb_eq.
      split; [intros [-> ->]; reflexivity | intros Hk; now inversion Hk].
Qed.

Lemma C8_groups_exist_only_for_keys_present_witness :
  In "North"
    (map fst (sales_by_region
                (df_filtered sample_df ["North"; "South"] ["Books"])))
  /\ ~ In "East"
       (map fst (sales_by_region
                   (df_filtered sample_df ["North"; "South"] ["Books"]))).
Proof.
  pose proof (C8_groups_exist_only_for_keys_present sample_df
                ["North"; "South"] ["Books"]) as [[_ [Hkeys _]] _].
  split.
  - apply Hkeys. exists (nth 2 sample_df (sample_row 0 0 "" "" "" 0 0 0)).
    split; [|reflexivity]. right. left. reflexivity.
  - intros Hin. apply Hkeys in Hin. destruct Hin as [r [Hin Hr]].
    simpl in Hin. destruct Hin as [<- | [<- | []]]; discriminate Hr.
Defined.

(** ** [nlargest] *)

Lemma StronglySorted_app_inv {A : Type} (R : A -> A -> Prop) (l1 l2 : list A) :
  StronglySorted R (l1 ++ l2) ->
  StronglySorted R l1 /\ StronglySorted R l2
  /\ (forall a b, In a l1 -> In b l2 -> R a b).
Proof.
  induction l1 as [|x l1 IH]; simpl; intros Hs.
  - split; [constructor|]. split; [assumption|]. intros a b [].
  - apply StronglySorted_inv in Hs. destruct Hs as [Hs Hall].
    destruct (IH Hs) as [H1 [H2 H12]].
    apply Forall_app in Hall. destruct Hall as [Hall1 Hall2].
    split; [now constructor|]. split; [assumption|].
    intros a b [<- | Ha] Hb.
    + rewrite Forall_forall in Hall2. now apply Hall2.
    + now apply H12.
Qed.

Section NLargestFacts.
Context {K V : Type} `{KeyLaws K} `{KeyLaws V}.

Lemma insert_desc_perm (x : K * V) (l : list (K * V)) :
  Permutation (Pandas.insert_desc x l) (x :: l).
Proof.
  induction l as [|y l IH]; simpl; [reflexivity|].
  destruct (cmp (snd y) (snd x)); try reflexivity.
  - rewrite IH. apply perm_swap.
  - rewrite IH. apply perm_swap.
Qed.

Lemma sort_values_desc_fold_perm (s acc : list (K * V)) :
  Permutation (fold_left (fun acc x => Pandas.insert_desc x acc) s acc)
    (acc ++ s).
Proof.
  revert acc. induction s as [|x s IH]; intros acc; simpl.
  - now rewrite app_nil_r.
  - rewrite IH, insert_desc_perm. apply Permutation_middle.
Qed.

Lemma sort_values_desc_perm (s : list (K * V)) :
  Permutation (Pandas.sort_values_desc s) s.
Proof.
  unfold Pandas.sort_values_desc. now rewrite sort_values_desc_fold_perm.
Qed.

Lemma ranked_before_gt_trans (x y z : K * V) :
  cmp (snd x) (snd y) = Gt -> ranked_before y z -> cmp (snd x) (snd z) = Gt.
Proof.
  intros Hxy [Hyz | [Heq _]].
  - apply cmp_gt_lt. apply cmp_gt_lt in Hxy, Hyz.
    now apply cmp_trans with (snd y).
  - now rewrite <- Heq.
Qed.

Lemma insert_desc_ranked (x : K * V) (acc : list (K * V)) :
  StronglySorted ranked_before acc ->
  Forall (fun y => cmp (fst y) (fst x) = Lt) acc ->
  StronglySorted ranked_before (Pandas.insert_desc x acc).
Proof.
  induction acc as [|y acc IH]; simpl; intros Hs Hkeys.
  - repeat constructor.
  - apply StronglySorted_inv in Hs. destruct Hs as [Hs Hall].
    inversion Hkeys as [|? ? Hy Hkeys']; subst.
    destruct (cmp (snd y) (snd x)) eqn:E.
    + constructor; [now apply IH|].
      apply (Permutation_Forall (Permutation_sym (insert_desc_perm x acc))).
      constructor; [|assumption].
      right. apply cmp_eq in E. now split.
    + assert (cmp (snd x) (snd y) = Gt) as Hgt by now apply cmp_gt_lt.
      constructor; [now constructor|].
      constructor; [now left|].
      eapply Forall_impl; [|exact Hall].
      intros z Hz. left. now apply ranked_before_gt_trans with y.
    + constructor; [now apply IH|].
      apply (Permutation_Forall (Permutation_sym (insert_desc_perm x acc))).
      constructor; [|assumption].
      now left.
Qed.

Lemma sort_values_desc_fold_ranked (s acc : list (K * V)) :
  StronglySorted ranked_before acc ->
  keys_ascending s ->
  (forall y x, In y acc -> In x s -> cmp (fst y) (fst x) = Lt) ->
  StronglySorted ranked_before
    (fold_left (fun acc x => Pandas.insert_desc x acc) s acc).
Proof.
  revert acc. induction s as [|x s IH]; intros acc Hacc Hs Hlt; simpl.
  - assumption.
  - apply StronglySorted_inv in Hs. destruct Hs as [Hs Hall].
    apply IH; [|assumption|].
    + apply insert_desc_ranked; [assumption|].
      apply Forall_forall. intros y Hy. apply Hlt; [assumption | now left].
    + intros y x' Hy Hx'.
      apply (Permutation_in _ (insert_desc_perm x acc)) in Hy.
      destruct Hy as [<- | Hy].
      * rewrite Forall_forall in Hall. now apply Hall.
      * apply Hlt; [assumption | now right].
Qed.

(** The full ranking of a series with ascending keys. *)
Lemma sort_values_desc_ranked (s : list (K * V)) :
  keys_ascending s ->
  StronglySorted ranked_before (Pandas.sort_values_desc s).
Proof.
  intros Hs. apply sort_values_desc_fold_ranked; [constructor | assumption|].
  intros y x [].
Qed.

(** What [nlargest n] returns on a series with ascending keys. *)
Lemma nlargest_spec (n : nat) (s : list (K * V)) :
  keys_ascending s ->
  let top := Pandas.nlargest n s in
  List.length top = Nat.min n (List.length s)
  /\ incl top s
  /\ NoDup (map fst top)
  /\ StronglySorted ranked_before top
  /\ (forall x y, In x s -> ~ In x top -> In y top -> ranked_before y x).
Proof.
  intros Hs top. subst top. unfold Pandas.nlargest.
  pose proof (sort_values_desc_perm s) as Hperm.
  pose proof (sort_values_desc_ranked s Hs) as Hranked.
  rewrite <- (firstn_skipn n (Pandas.sort_values_desc s)) in Hranked.
  apply StronglySorted_app_inv in Hranked.
  destruct Hranked as [Htop [_ Hcut]].
  split; [|split; [|split; [|split]]].
  - rewrite length_firstn. now rewrite (Permutation_length Hperm).
  - intros x Hx. apply (Permutation_in _ Hperm).
    rewrite <- (firstn_skipn n (Pandas.sort_values_desc s)).
    apply in_or_app. now left.
  - assert (NoDup (map fst (Pandas.sort_values_desc s))) as Hnd.
    { apply (Permutation_NoDup (Permutation_map fst (Permutation_sym Hperm))).
      now apply keys_ascending_NoDup. }
    rewrite <- (firstn_skipn n (Pandas.sort_values_desc s)), map_app in Hnd.
    now apply NoDup_app_remove_r in Hnd.
  - assumption.
  - intros x y Hx Hnot Hy. apply Hcut; [assumption|].
    apply (Permutation_in _ (Permutation_sym Hperm)) in Hx.
    rewrite <- (firstn_skipn n (Pandas.sort_values_desc s)) in Hx.
    apply in_app_or in Hx. tauto.
Qed.
End NLargestFacts.

Lemma StronglySorted_impl {A : Type} (R1 R2 : A -> A -> Prop) (l : list A) :
  (forall a b, R1 a b -> R2 a b) ->
  StronglySorted R1 l -> StronglySorted R2 l.
Proof.
  intros Himpl. induction 1 as [|x l Hs IH Hall]; constructor; [assumption|].
  eapply Forall_impl; [|exact Hall]. intros b. apply Himpl.
Qed.

(** The per-product sums of a column and their ten largest. *)
Lemma top_by_product_spec {V : Type} `{KeyLaws V} `{Dtype V}
  (col : Row -> V) (view : DataFrame) :
  let s := groupby_sum Product col view in
  let top := Pandas.nlargest 10 s in
  let products := Pandas.unique String.eqb (map Product view) in
  let total p :=
    Pandas.sum (map col (filter (fun r => String.eqb (Product r) p) view)) in
  keys_ascending s
  /\ List.length top = Nat.min 10 (List.length products)
  /\ NoDup (map fst top)
  /\ (forall p v, In (p, v) top -> In p products /\ v = total p)
  /\ (forall p, In p products -> In (p, total p) s)
  /\ StronglySorted ranked_before top
  /\ (forall x y, In x s -> ~ In x top -> In y top -> ranked_before y x).
Proof.
  intros s top products total.
  destruct (groupby_sum_spec Product col view) as [Hasc [Hnd [Hkeys Hval]]].
  fold s in Hasc, Hnd, Hkeys, Hval.
  destruct (nlargest_spec 10 s Hasc) as [Hlen [Hincl [Hndt [Hsorted Hcut]]]].
  fold top in Hlen, Hincl, Hndt, Hsorted, Hcut.
  assert (forall p, In p products <-> In p (map fst s)) as Hprod.
  { intros p. unfold products.
    rewrite (unique_In String.eqb String.eqb_eq), Hkeys, in_map_iff.
    split; intros [r [H3 H4]]; exists r; auto. }
  assert (forall p v, In (p, v) s -> v = total p) as Htotal.
  { intros p v Hin. rewrite (Hval p v Hin). unfold total.
    rewrite (rows_with_filter Product p (fun r => String.eqb (Product r) p));
      [reflexivity|].
    intros r. apply String.eqb_eq. }
  split; [assumption|]. split; [|split; [|split; [|split; [|split]]]].
  - rewrite Hlen. f_equal.
    rewrite <- (length_map fst s). apply Permutation_length.
    apply NoDup_Permutation; [assumption | |].
    + apply (unique_NoDup String.eqb String.eqb_eq).
    + intros p. symmetry. apply Hprod.
  - assumption.
  - intros p v Hin. apply Hincl in Hin. split; [|now apply Htotal].
    apply Hprod. change p with (fst (p, v)). now apply in_map.
  - intros p Hp. apply Hprod, in_map_iff in Hp.
    destruct Hp as [[p' v] [Hfst Hin]]. simpl in Hfst. subst p'.
    now rewrite <- (Htotal p v Hin).
  - assumption.
  - assumption.
Qed.

Lemma ranked_before_Qc_le (a b : string * Qc) :
  ranked_before a b -> (snd b <= snd a)%Qc.
Proof.
  intros [Hgt | [Heq _]].
  - apply Qclt_le_weak. now apply Qcgt_alt.
  - rewrite Heq. apply Qcle_refl.
Qed.

Lemma ranked_before_Z_le (a b : string * Z) :
  ranked_before a b -> (snd b <= snd a)%Z.
Proof.
  intros [Hgt | [Heq _]].
  - simpl in Hgt. apply Z.compare_gt_iff in Hgt. lia.
  - rewrite Heq. lia.
Qed.

(** C6: the list of top products by sales value holds the products of the
    view with the largest sums of total price, ten of them or all of them
    when the view has fewer than ten products, each once with its sum, in
    descending order of the sum, and no product left out has a larger sum
    than a listed one; the list by quantity is the same for the sums of
    quantity; the two lists are computed apart and can differ in members
    and in order. *)
Theorem C6_top_ten_products (df : DataFrame)
  (regions categories : list string) :
  let view := df_filtered df regions categories in
  let products := Pandas.unique String.eqb (map Product view) in
  (List.length (product_sales view) = Nat.min 10 (List.length products)
   /\ NoDup (map fst (product_sales view))
   /\ (forall p v, In (p, v) (product_sales view) ->
                   In p products /\ v = product_total view p)
   /\ StronglySorted (fun a b => (snd b <= snd a)%Qc) (product_sales view)
   /\ (forall p q v, In p products ->
                     ~ In p (map fst (product_sales view)) ->
                     In (q, v) (product_sales view) ->
                     (product_total view p <= v)%Qc))
  /\ (List.length (quantity_by_product view)
      = Nat.min 10 (List.length products)
      /\ NoDup (map fst (quantity_by_product view))
      /\ (forall p v, In (p, v) (quantity_by_product view) ->
                      In p products /\ v = product_quantity view p)
      /\ StronglySorted (fun a b => (snd b <= snd a)%Z)
           (quantity_by_product view)
      /\ (forall p q v, In p products ->
                        ~ In p (map fst (quantity_by_product view)) ->
                        In (q, v) (quantity_by_product view) ->
                        (product_quantity view p <= v)%Z))
  /\ (exists p, In p (map fst (product_sales sample_products))
                /\ ~ In p (map fst (quantity_by_product sample_products)))
  /\ map fst (product_sales sample_df)
     <> map fst (quantity_by_product sample_df).
Proof.
  intros view products. split; [|split; [|split]].
  - destruct (top_by_product_spec TotalPrice view)
      as [_ [Hlen [Hnd [Hin [Hall [Hsorted Hcut]]]]]].
    fold products in Hlen, Hin, Hall.
    split; [exact Hlen|]. split; [exact Hnd|]. split; [exact Hin|]. split.
    + eapply StronglySorted_impl; [|exact Hsorted].
      apply ranked_before_Qc_le.
    + intros p q v Hp Hnot Htop.
      apply (ranked_before_Qc_le (q, v) (p, product_total view p)).
      apply Hcut; [now apply Hall | | exact Htop].
      intros Hin'. apply Hnot.
      change p with (fst (p, product_total view p)). now apply in_map.
  - destruct (top_by_product_spec Quantity view)
      as [_ [Hlen [Hnd [Hin [Hall [Hsorted Hcut]]]]]].
    fold products in Hlen, Hin, Hall.
    split; [exact Hlen|]. split; [exact Hnd|]. split; [exact Hin|]. split.
    + eapply StronglySorted_impl; [|exact Hsorted].
      apply ranked_before_Z_le.
    + intros p q v Hp Hnot Htop.
      apply (ranked_before_Z_le (q, v) (p, product_quantity view p)).
      apply Hcut; [now apply Hall | | exact Htop].
      intros Hin'. apply Hnot.
      change p with (fst (p, product_quantity view p)). now apply in_map.
  - exists "P01". split.
    + vm_compute. tauto.
    + vm_compute. intros Hin.
      repeat (destruct Hin as [Hin | Hin]; [discriminate Hin|]).
      exact Hin.
  - vm_compute. discriminate.
Qed.

Lemma C6_top_ten_products_witness :
  List.length (product_sales (df_filtered sample_products ["North"] ["Books"]))
  = 10%nat
  /\ forall q v,
       In (q, v)
         (product_sales (df_filtered sample_products ["North"] ["Books"])) ->
       (product_total (df_filtered sample_products ["North"] ["Books"]) "P11"
        <= v)%Qc.
Proof.
  pose proof (C6_top_ten_products sample_products ["North"] ["Books"])
    as [[Hlen [_ [_ [_ Hcut]]]] _].
  split; [exact Hlen|].
  intros q v Hin. apply (Hcut "P11" q v); [| |exact Hin].
  - vm_compute. tauto.
  - vm_compute. intros Hp.
    repeat (destruct Hp as [Hp | Hp]; [discriminate Hp|]).
    exact Hp.
Defined.

(** C6 as stated fails on a view with fewer than ten products: the view of
    the North / Electronics rows of the sample has two products, and both
    lists have two entries, not ten. *)
Lemma C6_fewer_than_ten_products :
  let view := df_filtered sample_df ["North"] ["Electronics"] in
  List.length (product_sales view) = 2%nat
  /\ List.length (quantity_by_product view) = 2%nat
  /\ List.length (product_sales view) <> 10%nat
  /\ List.length (quantity_by_product view) <> 10%nat
  /\ List.length (product_sales (df_filtered sample_df [] [])) = 0%nat.
Proof.
  vm_compute. repeat split; discriminate.
Qed.

Lemma key_eq_dec {K : Type} `{KeyLaws K} (a b : K) : {a = b} + {a <> b}.
Proof.
  destruct (cmp a b) eqn:E.
  - left. now apply cmp_eq.
  - right. intros ->. rewrite cmp_refl in E. discriminate.
  - right. intros ->. rewrite cmp_refl in E. discriminate.
Qed.

(** The cut of [nlargest] never drops an entry in favour of one with the
    same value and a later key. *)
Lemma nlargest_keeps_first {K V : Type} `{KeyLaws K} `{KeyLaws V}
  (n : nat) (s : list (K * V)) (x y : K * V) :
  keys_ascending s ->
  In x s -> In y (Pandas.nlargest n s) ->
  snd x = snd y -> cmp (fst x) (fst y) = Lt ->
  In x (Pandas.nlargest n s).
Proof.
  intros Hs Hx Hy Hval Hkey.
  destruct (in_dec key_eq_dec x (Pandas.nlargest n s)) as [Hin | Hnot];
    [assumption|].
  exfalso.
  destruct (nlargest_spec n s Hs) as [_ [_ [_ [_ Hcut]]]].
  destruct (Hcut x y Hx Hnot Hy) as [Hgt | [_ Hlt]].
  - rewrite Hval, cmp_refl in Hgt. discriminate.
  - pose proof (cmp_trans _ _ _ Hkey Hlt) as Hxx.
    rewrite cmp_refl in Hxx. discriminate.
Qed.

Lemma ranked_before_Qc (a b : string * Qc) :
  ranked_before a b ->
  (snd b < snd a)%Qc \/ (snd a = snd b /\ String.compare (fst a) (fst b) = Lt).
Proof.
  intros [Hgt | Htie]; [left | now right].
  now apply Qcgt_alt.
Qed.

Lemma ranked_before_Z (a b : string * Z) :
  ranked_before a b ->
  (snd b < snd a)%Z \/ (snd a = snd b /\ String.compare (fst a) (fst b) = Lt).
Proof.
  intros [Hgt | Htie]; [left | now right].
  simpl in Hgt. apply Z.compare_gt_iff in Hgt. exact Hgt.
Qed.

(** C10: in both product rankings the tie-break is fixed.  The group-by
    step lists the products by ascending name; the ranking puts a larger sum
    first and, between two equal sums, the product whose name comes first;
    and the cut to ten entries never keeps a product while dropping one of
    equal sum and earlier name. *)
Theorem C10_equal_sums_rank_by_product_name (df : DataFrame)
  (regions categories : list string) :
  let view := df_filtered df regions categories in
  let products := Pandas.unique String.eqb (map Product view) in
  (StronglySorted (fun a b => String.compare (fst a) (fst b) = Lt)
     (groupby_sum Product TotalPrice view)
   /\ StronglySorted
        (fun a b => (snd b < snd a)%Qc
                    \/ (snd a = snd b /\ String.compare (fst a) (fst b) = Lt))
        (product_sales view)
   /\ (forall p q v, In p products -> product_total view p = v ->
                     In (q, v) (product_sales view) ->
                     String.compare p q = Lt ->
                     In (p, v) (product_sales view)))
  /\ (StronglySorted (fun a b => String.compare (fst a) (fst b) = Lt)
        (groupby_sum Product Quantity view)
      /\ StronglySorted
           (fun a b => (snd b < snd a)%Z
                       \/ (snd a = snd b
                           /\ String.compare (fst a) (fst b) = Lt))
           (quantity_by_product view)
      /\ (forall p q v, In p products -> product_quantity view p = v ->
                        In (q, v) (quantity_by_product view) ->
                        String.compare p q = Lt ->
                        In (p, v) (quantity_by_product view))).
Proof.
  intros view products. split.
  - destruct (top_by_product_spec TotalPrice view)
      as [Hasc [_ [_ [_ [Hall [Hsorted _]]]]]].
    fold products in Hall.
    split; [exact Hasc|]. split.
    + eapply StronglySorted_impl; [|exact Hsorted].
      apply ranked_before_Qc.
    + intros p q v Hp Hv Hq Hlt. subst v.
      apply (nlargest_keeps_first 10 _ (p, product_total view p)
               (q, product_total view p) Hasc);
        [now apply Hall | exact Hq | reflexivity | exact Hlt].
  - destruct (top_by_product_spec Quantity view)
      as [Hasc [_ [_ [_ [Hall [Hsorted _]]]]]].
    fold products in Hall.
    split; [exact Hasc|]. split.
    + eapply StronglySorted_impl; [|exact Hsorted].
      apply ranked_before_Z.
    + intros p q v Hp Hv Hq Hlt. subst v.
      apply (nlargest_keeps_first 10 _ (p, product_quantity view p)
               (q, product_quantity view p) Hasc);
        [now apply Hall | exact Hq | reflexivity | exact Hlt].
Qed.

Lemma C10_equal_sums_rank_by_product_name_witness :
  map fst (product_sales (df_filtered sample_df ["North"; "South"; "East"]
                            ["Electronics"; "Books"]))
  = ["Product_10"; "Product_2"; "Product_7"]
  /\ In ("Product_10", Q2Qc (inject_Z 50))
       (product_sales (df_filtered sample_df ["North"; "South"; "East"]
                         ["Electronics"; "Books"])).
Proof.
  split; [reflexivity|].
  pose proof (C10_equal_sums_rank_by_product_name sample_df
                ["North"; "South"; "East"] ["Electronics"; "Books"])
    as [[_ [_ Hfirst]] _].
  apply (Hfirst "Product_10" "Product_7" (Q2Qc (inject_Z 50))).
  - vm_compute. tauto.
  - apply Qc_is_canon. reflexivity.
  - right. right. left. now f_equal.
  - reflexivity.
Defined.

(** ** Passes of the script *)

Lemma cached_load_data_coherent (rng : RandomState) (s : Session) :
  cache_coherent rng s ->
  cached_load_data rng (cache_data s) = (load_data rng, Some (load_data rng)).
Proof.
  unfold cached_load_data. intros [-> | ->]; reflexivity.
Qed.

Lemma script_coherent (rng : RandomState) (s : Session) :
  cache_coherent rng s ->
  script rng s
  = ({| cache_data := Some (load_data rng);
        regions_widget := regions_widget s;
        categories_widget := categories_widget s |},
     render (df_filtered (load_data rng)
               (selected_regions rng s) (selected_categories rng s))).
Proof.
  intros Hc. unfold script. now rewrite (cached_load_data_coherent rng s Hc).
Qed.

(** * Further properties of the script *)

(** ** The first pass and the selections *)

Lemma load_data_length (rng : RandomState) :
  List.length (load_data rng) = n_rows.
Proof.
  unfold load_data. now rewrite length_map, length_seq.
Qed.

Lemma total_orders_of_table (rng : RandomState) :
  total_orders (load_data rng) = Z.of_nat n_rows.
Proof.
  unfold total_orders, Pandas.nunique.
  rewrite (unique_of_NoDup Z.eqb Z.eqb_eq).
  - now rewrite length_map, load_data_length.
  - apply load_data_OrderID_NoDup.
Qed.

(** On the first pass of a session, with both widgets at their default, the
    script fills the cache and shows the whole table: the view is the 1000
    generated rows and the Total Orders metric reads 1000. *)
Theorem first_pass_shows_the_whole_table (rng : RandomState) :
  script rng fresh_session
  = ({| cache_data := Some (load_data rng);
        regions_widget := None;
        categories_widget := None |},
     render (load_data rng))
  /\ List.length (load_data rng) = 1000%nat
  /\ metric_total_orders (snd (script rng fresh_session)) = 1000%Z.
Proof.
  assert (df_filtered (load_data rng)
            (selected_regions rng fresh_session)
            (selected_categories rng fresh_session) = load_data rng) as Hall.
  { apply df_filtered_all; intros r Hin.
    - apply (unique_In String.eqb String.eqb_eq), in_map, Hin.
    - apply (unique_In String.eqb String.eqb_eq), in_map, Hin. }
  assert (script rng fresh_session
          = ({| cache_data := Some (load_data rng);
                regions_widget := None;
                categories_widget := None |},
             render (load_data rng))) as Hscript.
  { rewrite script_coherent by (left; reflexivity). now rewrite Hall. }
  split; [exact Hscript|]. split; [apply load_data_length|].
  rewrite Hscript. cbn [snd render metric_total_orders].
  apply total_orders_of_table.
Qed.

Lemma mask_same_set (regions regions' categories categories' : list string)
  (r : Row) :
  same_set regions regions' -> same_set categories categories' ->
  mask regions categories r = mask regions' categories' r.
Proof.
  intros Hr Hc.
  destruct (mask regions categories r) eqn:E1;
    destruct (mask regions' categories' r) eqn:E2; try reflexivity.
  - apply mask_true in E1. destruct E1 as [H1 H2].
    apply Hr in H1. apply Hc in H2.
    assert (mask regions' categories' r = true) as E by now apply mask_true.
    congruence.
  - apply mask_true in E2. destruct E2 as [H1 H2].
    apply Hr in H1. apply Hc in H2.
    assert (mask regions categories r = true) as E by now apply mask_true.
    congruence.
Qed.

(** The view depends on the selections as sets only: the order in which the
    values were picked and repeated values make no difference. *)
Theorem view_depends_on_the_selected_sets_only (df : DataFrame)
  (regions regions' categories categories' : list string) :
  same_set regions regions' ->
  same_set categories categories' ->
  df_filtered df regions categories = df_filtered df regions' categories'.
Proof.
  intros Hr Hc. unfold df_filtered. apply filter_ext.
  intros r. now apply mask_same_set.
Qed.

Lemma view_depends_on_the_selected_sets_only_witness :
  df_filtered sample_df ["North"; "South"] ["Books"]
  = df_filtered sample_df ["South"; "North"; "South"] ["Books"; "Books"].
Proof.
  apply (view_depends_on_the_selected_sets_only sample_df
           ["North"; "South"] ["South"; "North"; "South"]
           ["Books"] ["Books"; "Books"]).
  - intros x. simpl. tauto.
  - intros x. simpl. tauto.
Defined.

(** Selecting more never loses rows: when every region and every category
    of one selection is in another, the first view is a subsequence of the
    second, so it has at most as many orders. *)
Theorem wider_selection_gives_wider_view (df : DataFrame)
  (regions regions' categories categories' : list string) :
  incl regions regions' ->
  incl categories categories' ->
  subseq (df_filtered df regions categories)
    (df_filtered df regions' categories')
  /\ (List.length (df_filtered df regions categories)
      <= List.length (df_filtered df regions' categories'))%nat.
Proof.
  intros Hr Hc.
  assert (subseq (df_filtered df regions categories)
            (df_filtered df regions' categories')) as Hsub.
  { unfold df_filtered. induction df as [|r df IH]; simpl; [constructor|].
    destruct (mask regions categories r) eqn:E.
    - apply mask_true in E. destruct E as [H1 H2].
      assert (mask regions' categories' r = true) as E'
        by (apply mask_true; auto).
      rewrite E'. now constructor.
    - destruct (mask regions' categories' r); [now constructor | exact IH]. }
  split; [exact Hsub | now apply subseq_length].
Qed.

Lemma wider_selection_gives_wider_view_witness :
  subseq (df_filtered sample_df ["North"] ["Books"])
    (df_filtered sample_df ["North"; "East"] ["Books"; "Electronics"]).
Proof.
  apply (wider_selection_gives_wider_view sample_df
           ["North"] ["North"; "East"] ["Books"] ["Books"; "Electronics"]).
  - intros x. simpl. tauto.
  - intros x. simpl. tauto.
Defined.

(** ** The average order value *)

Lemma row_count_nonzero (r : Row) (view : DataFrame) :
  row_count (r :: view) <> 0%Qc.
Proof.
  unfold row_count. intros Heq.
  apply (f_equal this) in Heq. simpl in Heq.
  assert (Qred (inject_Z (Z.of_nat (S (List.length view)))) == 0)%Q as H0
    by (simpl; rewrite Heq; reflexivity).
  rewrite Qred_correct in H0. unfold Qeq in H0. simpl in H0. lia.
Qed.

Lemma avg_order_value_cons (r : Row) (view : DataFrame) :
  avg_order_value (r :: view)
  = Finite (total_sales (r :: view) / row_count (r :: view))%Qc.
Proof.
  unfold avg_order_value, Pandas.mean, total_sales, row_count.
  cbn [map List.length]. now rewrite length_map.
Qed.

(** ** What the generator's contract gives *)

Lemma Q2Qc_inject_Z_le (a b : Z) :
  (a <= b)%Z -> (Q2Qc (inject_Z a) <= Q2Qc (inject_Z b))%Qc.
Proof.
  intros Hab. unfold Qcle.
  change (Qred (inject_Z a) <= Qred (inject_Z b))%Q.
  rewrite !Qred_correct. now rewrite <- Zle_Qle.
Qed.

Lemma Q2Qc_inject_Z_pos (a : Z) : (0 < a)%Z -> (0 < Q2Qc (inject_Z a))%Qc.
Proof.
  intros Ha. unfold Qclt.
  change (inject_Z 0 < Qred (inject_Z a))%Q.
  rewrite Qred_correct. now rewrite <- Zlt_Qlt.
Qed.

Lemma Qcplus_lt_le_compat (a b c d : Qc) :
  (a < c)%Qc -> (b <= d)%Qc -> (a + b < c + d)%Qc.
Proof.
  intros Hac Hbd.
  apply Qclt_le_trans with (c + b)%Qc.
  - apply Qclt_minus_iff. apply Qclt_minus_iff in Hac.
    replace (c + b + - (a + b))%Qc with (c + - a)%Qc by ring. exact Hac.
  - apply Qcplus_le_compat; [apply Qcle_refl | exact Hbd].
Qed.

Lemma total_price_in_range (q : Z) (u : Qc) :
  (1 <= q < 10)%Z -> (Q2Qc 10 <= u)%Qc -> (u < Q2Qc 100)%Qc ->
  (Q2Qc 10 <= Q2Qc (inject_Z q) * u)%Qc
  /\ (Q2Qc (inject_Z q) * u < Q2Qc 900)%Qc.
Proof.
  intros [Hq1 Hq10] Hlo Hhi.
  assert (0 <= u)%Qc as Hu
    by (apply Qcle_trans with (Q2Qc 10); [discriminate | exact Hlo]).
  split.
  - apply Qcle_trans with (Q2Qc (inject_Z 1) * u)%Qc.
    + replace (Q2Qc (inject_Z 1)) with 1%Qc
        by (apply Qc_is_canon; reflexivity).
      rewrite Qcmult_1_l. exact Hlo.
    + apply Qcmult_le_compat_r; [|exact Hu].
      now apply Q2Qc_inject_Z_le.
  - apply Qcle_lt_trans with (Q2Qc (inject_Z 9) * u)%Qc.
    + apply Qcmult_le_compat_r; [|exact Hu].
      apply Q2Qc_inject_Z_le. lia.
    + replace (Q2Qc 900) with (Q2Qc 100 * Q2Qc (inject_Z 9))%Qc
        by (apply Qc_is_canon; reflexivity).
      rewrite Qcmult_comm. apply Qcmult_lt_compat_r; [reflexivity | exact Hhi].
Qed.

Lemma choice_date (k : nat) :
  (k < 731)%nat ->
  choice date_range_2023_2024 0%Z k = ((19358 + Z.of_nat k) * ns_per_day)%Z.
Proof.
  intros Hk. unfold choice, date_range_2023_2024.
  rewrite (nth_indep _ 0%Z ((19358 + Z.of_nat 0) * ns_per_day)%Z)
    by now rewrite length_map, length_seq.
  rewrite (map_nth (fun k => ((19358 + Z.of_nat k) * ns_per_day)%Z)).
  now rewrite seq_nth.
Qed.

Lemma load_data_In (rng : RandomState) (r : Row) :
  In r (load_data rng)
  <-> exists i, (i < n_rows)%nat /\ r = load_row (S i) (rng i).
Proof.
  unfold load_data. rewrite in_map_iff. split.
  - intros [i [Hr Hi]]. apply in_seq in Hi. exists i. split; [lia | now subst].
  - intros [i [Hi Hr]]. exists i. split; [now subst|]. apply in_seq. lia.
Qed.

Lemma load_row_in_range (i : nat) (d : Draw) :
  draw_in_range d ->
  let r := load_row i d in
  In (Region r) region_options
  /\ In (Category r) category_options
  /\ (1 <= Quantity r <= 9)%Z
  /\ (Q2Qc 10 <= UnitPrice r)%Qc /\ (UnitPrice r < Q2Qc 100)%Qc
  /\ (Q2Qc 10 <= TotalPrice r)%Qc /\ (TotalPrice r < Q2Qc 900)%Qc
  /\ (100 <= CustomerID r < 500)%Z
  /\ (exists k, (1 <= k <= 50)%Z
                /\ Product r = String.append "Product_" (str_int k))
  /\ (Date r mod ns_per_day = 0)%Z
  /\ (19358 <= dt_date (Date r) <= 20088)%Z.
Proof.
  intros [Hd [Hr [Hc [Hp [Hq [Hlo [Hhi Hcust]]]]]]] r. subst r.
  destruct (total_price_in_range _ _ Hq Hlo Hhi) as [Htlo Hthi].
  unfold load_row, dt_date.
  cbn [Region Category Quantity UnitPrice TotalPrice CustomerID Product Date].
  rewrite (choice_date _ Hd).
  split; [now apply nth_In|]. split; [now apply nth_In|].
  split; [lia|].
  split; [assumption|]. split; [assumption|].
  split; [assumption|]. split; [assumption|].
  split; [lia|].
  split; [exists (draw_product d); split; [lia | reflexivity]|].
  split; [apply Z.mod_mul; discriminate|].
  rewrite Z.div_mul by discriminate. lia.
Qed.

(** When the random stream keeps numpy's contract, every generated row has
    an order id from 1 to 1000, a region and a category of the two fixed
    lists, a quantity from 1 to 9, a unit price in [10, 100), a total price
    in [10, 900), a customer id in [100, 500), a product name "Product_k"
    with k from 1 to 50, and a date that is a midnight between 2023-01-01
    and 2024-12-31 (day numbers 19358 to 20088). *)
Theorem generated_rows_are_in_range (rng : RandomState) (r : Row) :
  rng_in_range rng ->
  In r (load_data rng) ->
  (1 <= OrderID r <= 1000)%Z
  /\ In (Region r) region_options
  /\ In (Category r) category_options
  /\ (1 <= Quantity r <= 9)%Z
  /\ (Q2Qc 10 <= UnitPrice r)%Qc /\ (UnitPrice r < Q2Qc 100)%Qc
  /\ (Q2Qc 10 <= TotalPrice r)%Qc /\ (TotalPrice r < Q2Qc 900)%Qc
  /\ (100 <= CustomerID r < 500)%Z
  /\ (exists k, (1 <= k <= 50)%Z
                /\ Product r = String.append "Product_" (str_int k))
  /\ (Date r mod ns_per_day = 0)%Z
  /\ (19358 <= dt_date (Date r) <= 20088)%Z.
Proof.
  intros Hrng Hin. apply load_data_In in Hin. destruct Hin as [i [Hi ->]].
  split; [|exact (load_row_in_range (S i) (rng i) (Hrng i))].
  unfold load_row, n_rows in *. cbn [OrderID]. lia.
Qed.

Lemma ranged_rng_in_range : rng_in_range ranged_rng.
Proof.
  intros i. unfold draw_in_range, ranged_rng.
  cbn [draw_date draw_region draw_category draw_product draw_quantity
       draw_unit_price draw_customer].
  pose proof (Nat.mod_upper_bound i 731).
  pose proof (Nat.mod_upper_bound i 5).
  pose proof (Nat.mod_upper_bound i 4).
  pose proof (Nat.mod_upper_bound i 50).
  pose proof (Nat.mod_upper_bound i 9).
  pose proof (Nat.mod_upper_bound i 400).
  repeat match goal with |- _ /\ _ => split end;
    try lia; try discriminate; reflexivity.
Qed.

Lemma generated_rows_are_in_range_witness :
  (Q2Qc 10 <= TotalPrice (load_row 1%nat (ranged_rng 0%nat)))%Qc.
Proof.
  apply (generated_rows_are_in_range ranged_rng
           (load_row 1 (ranged_rng 0)) ranged_rng_in_range).
  apply load_data_In. exists 0%nat. split; [unfold n_rows; lia | reflexivity].
Defined.

Lemma str_int_inj (a b : Z) : str_int a = str_int b -> a = b.
Proof.
  unfold str_int. intros Heq.
  assert (forall z, NilZero.int_of_string (NilZero.string_of_int (Z.to_int z))
                    = Some (Z.to_int z)) as Hisi.
  { intros z. apply NilZero.isi; destruct z; simpl; try discriminate.
    - intros Hnil. injection Hnil as Hnil.
      now apply Unsigned.to_uint_nonnil in Hnil.
    - intros Hnil. injection Hnil as Hnil.
      now apply Unsigned.to_uint_nonnil in Hnil. }
  apply DecimalZ.to_int_inj.
  assert (Some (Z.to_int a) = Some (Z.to_int b)) as Hsome
    by now rewrite <- !Hisi, Heq.
  now injection Hsome.
Qed.

(** Two generated rows carry the same product name exactly when the same
    product number was drawn for them, so grouping by product name groups by
    product number. *)
Theorem product_names_identify_product_numbers (i j : nat) (d d' : Draw) :
  Product (load_row i d) = Product (load_row j d')
  <-> draw_product d = draw_product d'.
Proof.
  unfold load_row. cbn [Product]. split.
  - intros Heq. cbn in Heq. injection Heq as Heq. now apply str_int_inj.
  - now intros ->.
Qed.

(** ** Bounds on the KPIs and on the size of the charts *)

Lemma row_count_cons (r : Row) (view : DataFrame) :
  row_count (r :: view) = (1 + row_count view)%Qc.
Proof.
  unfold row_count. cbn [List.length]. apply Qc_is_canon.
  change (Qred (inject_Z (Z.of_nat (S (List.length view))))
          == Qred (1 + Qred (inject_Z (Z.of_nat (List.length view)))))%Q.
  rewrite !Qred_correct, Nat2Z.inj_succ. unfold Z.succ.
  rewrite inject_Z_plus. ring.
Qed.

Lemma row_count_nonneg (view : DataFrame) : (0 <= row_count view)%Qc.
Proof.
  unfold row_count.
  change (Q2Qc (inject_Z 0)
          <= Q2Qc (inject_Z (Z.of_nat (List.length view))))%Qc.
  apply Q2Qc_inject_Z_le. lia.
Qed.

Lemma row_count_pos (r : Row) (view : DataFrame) :
  (0 < row_count (r :: view))%Qc.
Proof.
  unfold row_count. apply Q2Qc_inject_Z_pos. cbn [List.length]. lia.
Qed.

Lemma total_sales_in_range (lo hi : Qc) (view : DataFrame) :
  Forall (fun r => (lo <= TotalPrice r)%Qc /\ (TotalPrice r < hi)%Qc) view ->
  (lo * row_count view <= total_sales view)%Qc
  /\ (total_sales view <= hi * row_count view)%Qc
  /\ (view <> [] -> (total_sales view < hi * row_count view)%Qc).
Proof.
  unfold total_sales.
  induction 1 as [|r view [Hlo Hhi] Hall [IHlo [IHhi _]]].
  - change (row_count []) with 0%Qc. cbn [map].
    rewrite !Qcmult_0_r, sum_Qc_nil.
    split; [apply Qcle_refl|]. split; [apply Qcle_refl|].
    intros Hne. now contradiction Hne.
  - cbn [map]. rewrite sum_Qc_cons, row_count_cons.
    replace (lo * (1 + row_count view))%Qc with (lo + lo * row_count view)%Qc
      by ring.
    replace (hi * (1 + row_count view))%Qc with (hi + hi * row_count view)%Qc
      by ring.
    split; [now apply Qcplus_le_compat|].
    split.
    + apply Qcplus_le_compat; [now apply Qclt_le_weak | assumption].
    + intros _. now apply Qcplus_lt_le_compat.
Qed.

Lemma view_rows_in_range (rng : RandomState)
  (regions categories : list string) :
  rng_in_range rng ->
  Forall
    (fun r => (Q2Qc 10 <= TotalPrice r)%Qc /\ (TotalPrice r < Q2Qc 900)%Qc)
    (df_filtered (load_data rng) regions categories).
Proof.
  intros Hrng. apply Forall_forall. intros r Hin.
  apply df_filtered_In in Hin. destruct Hin as [Hin _].
  apply load_data_In in Hin. destruct Hin as [i [_ ->]].
  pose proof (load_row_in_range (S i) (rng i) (Hrng i)) as Hrow.
  cbv zeta in Hrow. tauto.
Qed.

(** Under numpy's contract, a non-empty filtered view has total sales of at
    least 10 and less than 900 per order, and its average order value is a
    number in [10, 900). *)
Theorem kpis_are_in_range (rng : RandomState)
  (regions categories : list string) :
  rng_in_range rng ->
  let view := df_filtered (load_data rng) regions categories in
  view <> [] ->
  (Q2Qc 10 * row_count view <= total_sales view)%Qc
  /\ (total_sales view < Q2Qc 900 * row_count view)%Qc
  /\ exists m, avg_order_value view = Finite m
               /\ (Q2Qc 10 <= m)%Qc /\ (m < Q2Qc 900)%Qc.
Proof.
  intros Hrng view Hne.
  destruct (total_sales_in_range (Q2Qc 10) (Q2Qc 900) view
              (view_rows_in_range rng regions categories Hrng))
    as [Hlo [_ Hhi]].
  specialize (Hhi Hne).
  split; [exact Hlo|]. split; [exact Hhi|].
  destruct view as [|r rest] eqn:Eview; [now contradiction Hne|].
  exists (total_sales (r :: rest) / row_count (r :: rest))%Qc.
  split; [apply avg_order_value_cons|].
  assert ((total_sales (r :: rest) / row_count (r :: rest)
           * row_count (r :: rest))%Qc = total_sales (r :: rest)) as Hmul
    by (rewrite Qcmult_comm; apply Qcmult_div_r, row_count_nonzero).
  split.
  - apply Qcmult_lt_0_le_reg_r with (row_count (r :: rest));
      [apply row_count_pos|].
    now rewrite Hmul.
  - destruct (Qclt_le_dec (total_sales (r :: rest) / row_count (r :: rest))
                (Q2Qc 900)) as [Hlt | Hge]; [exact Hlt|].
    exfalso. apply (Qcle_not_lt _ _
                      (Qcmult_le_compat_r _ _ (row_count (r :: rest)) Hge
                         (row_count_nonneg (r :: rest)))).
    now rewrite Hmul.
Qed.

Lemma kpis_are_in_range_witness :
  exists m, avg_order_value
              (df_filtered (load_data ranged_rng) ["North"] ["Electronics"])
            = Finite m
            /\ (Q2Qc 10 <= m)%Qc /\ (m < Q2Qc 900)%Qc.
Proof.
  apply (kpis_are_in_range ranged_rng ["North"] ["Electronics"]
           ranged_rng_in_range).
  intros Hempty.
  assert (In (load_row 1 (ranged_rng 0))
            (df_filtered (load_data ranged_rng) ["North"] ["Electronics"]))
    as Hin.
  { apply df_filtered_In. split; [|simpl; tauto].
    apply load_data_In. exists 0%nat.
    split; [unfold n_rows; lia | reflexivity]. }
  rewrite Hempty in Hin. exact Hin.
Defined.

Lemma groupby_sum_within {K V : Type} `{KeyLaws K} `{Dtype V}
  (key : Row -> K) (col : Row -> V) (view : DataFrame) (universe : list K) :
  (forall r, In r view -> In (key r) universe) ->
  incl (map fst (groupby_sum key col view)) universe
  /\ (List.length (groupby_sum key col view) <= List.length universe)%nat.
Proof.
  intros Hkey.
  destruct (groupby_sum_spec key col view) as [_ [Hnd [Hkeys _]]].
  assert (incl (map fst (groupby_sum key col view)) universe) as Hincl.
  { intros k Hk. apply Hkeys in Hk. destruct Hk as [r [Hin <-]]. auto. }
  split; [exact Hincl|].
  rewrite <- (length_map fst). now apply NoDup_incl_length.
Qed.

(** Under numpy's contract the charts have a bounded number of marks,
    whatever the selection: at most 5 region bars, all of them regions of
    the fixed list, at most 4 category slices, at most 20 (category, region)
    bars and at most 731 points in the daily series. *)
Theorem charts_have_bounded_size (rng : RandomState)
  (regions categories : list string) :
  rng_in_range rng ->
  let view := df_filtered (load_data rng) regions categories in
  (incl (map fst (sales_by_region view)) region_options
   /\ (List.length (sales_by_region view) <= 5)%nat)
  /\ (incl (map fst (sales_by_category view)) category_options
      /\ (List.length (sales_by_category view) <= 4)%nat)
  /\ (List.length (sales_by_category_region view) <= 20)%nat
  /\ (List.length (daily_sales view) <= 731)%nat.
Proof.
  intros Hrng view.
  assert (forall r, In r view ->
            In (Region r) region_options /\ In (Category r) category_options
            /\ (19358 <= dt_date (Date r) <= 20088)%Z) as Hrow.
  { intros r Hin. apply df_filtered_In in Hin. destruct Hin as [Hin _].
    apply load_data_In in Hin. destruct Hin as [i [_ ->]].
    pose proof (load_row_in_range (S i) (rng i) (Hrng i)) as H.
    cbv zeta in H. tauto. }
  split; [|split; [|split]].
  - apply (groupby_sum_within Region TotalPrice view region_options).
    intros r Hin. now apply Hrow.
  - apply (groupby_sum_within Category TotalPrice view category_options).
    intros r Hin. now apply Hrow.
  - apply (groupby_sum_within (fun r => (Category r, Region r)) TotalPrice
             view (list_prod category_options region_options)).
    intros r Hin. apply in_prod; now apply Hrow.
  - pose proof (groupby_sum_within (fun r => dt_date (Date r)) TotalPrice view
                  (map (fun k => (19358 + Z.of_nat k)%Z) (seq 0 731))) as Hday.
    rewrite length_map, length_seq in Hday. apply Hday.
    intros r Hin. apply Hrow in Hin. destruct Hin as [_ [_ Hd]].
    apply in_map_iff. exists (Z.to_nat (dt_date (Date r) - 19358)).
    split; [lia|]. apply in_seq. lia.
Qed.

Lemma charts_have_bounded_size_witness :
  (List.length
     (sales_by_region (df_filtered (load_data ranged_rng) ["North"] ["Books"]))
   <= 5)%nat.
Proof.
  apply (charts_have_bounded_size ranged_rng ["North"] ["Books"]
           ranged_rng_in_range).
Defined.

(** ** The rows behind a bar *)

Lemma filter_twice {A : Type} (p q : A -> bool) (l : list A) :
  filter p (filter q l) = filter (fun x => q x && p x) l.
Proof.
  induction l as [|x l IH]; simpl; [reflexivity|].
  destruct (q x); simpl; [|exact IH].
  destruct (p x); now rewrite IH.
Qed.

Lemma view_of_one_region (df : DataFrame) (regions categories : list string)
  (k : string) :
  In k regions ->
  filter (fun r => String.eqb (Region r) k) (df_filtered df regions categories)
  = df_filtered df [k] categories.
Proof.
  intros Hk. unfold df_filtered. rewrite filter_twice.
  apply filter_ext. intros r. unfold mask, Pandas.isin. simpl.
  destruct (String.eqb_spec (Region r) k) as [-> | Hne]; simpl.
  - assert (existsb (String.eqb k) regions = true) as ->
      by (apply existsb_exists; exists k; split;
          [assumption | apply String.eqb_refl]).
    now rewrite andb_true_r.
  - apply andb_false_r.
Qed.

Lemma view_of_one_category (df : DataFrame)
  (regions categories : list string) (k : string) :
  In k categories ->
  filter (fun r => String.eqb (Category r) k)
    (df_filtered df regions categories)
  = df_filtered df regions [k].
Proof.
  intros Hk. unfold df_filtered. rewrite filter_twice.
  apply filter_ext. intros r. unfold mask, Pandas.isin. simpl.
  destruct (String.eqb_spec (Category r) k) as [-> | Hne]; simpl.
  - assert (existsb (String.eqb k) categories = true) as ->
      by (apply existsb_exists; exists k; split;
          [assumption | apply String.eqb_refl]).
    now rewrite !andb_true_r.
  - now rewrite !andb_false_r.
Qed.

(** The rows that make up a region's bar are exactly the view one gets by
    selecting that region alone with the same categories, in the same
    order, and the rows of a category's slice are the view for that category
    alone with the same regions; a bar or a slice exists only for a
    selected value. *)
Theorem bars_are_built_from_single_selection_views (df : DataFrame)
  (regions categories : list string) :
  let view := df_filtered df regions categories in
  (forall k g, In (k, g) (Pandas.groupby Region view) ->
               g = df_filtered df [k] categories)
  /\ (forall k v, In (k, v) (sales_by_region view) ->
                  In k regions
                  /\ In (k, df_filtered df [k] categories)
                       (Pandas.groupby Region view))
  /\ (forall k g, In (k, g) (Pandas.groupby Category view) ->
                  g = df_filtered df regions [k])
  /\ (forall k v, In (k, v) (sales_by_category view) ->
                  In k categories
                  /\ In (k, df_filtered df regions [k])
                       (Pandas.groupby Category view)).
Proof.
  intros view.
  destruct (groupby_spec Region view) as [_ [Hold_r Hkeys_r]].
  destruct (groupby_spec Category view) as [_ [Hold_c Hkeys_c]].
  unfold groups_hold in Hold_r, Hold_c.
  rewrite Forall_forall in Hold_r, Hold_c.
  assert (forall k g, In (k, g) (Pandas.groupby Region view) ->
                      In k regions /\ g = df_filtered df [k] categories)
    as Hregion.
  { intros k g Hin.
    assert (In k regions) as Hk.
    { assert (In k (map fst (Pandas.groupby Region view))) as Hkey
        by (change k with (fst (k, g)); now apply in_map).
      apply Hkeys_r in Hkey. destruct Hkey as [r [Hr <-]].
      apply df_filtered_In in Hr. tauto. }
    split; [exact Hk|].
    pose proof (Hold_r _ Hin) as Hg. cbn [fst snd] in Hg. rewrite Hg.
    rewrite (rows_with_filter Region k (fun r => String.eqb (Region r) k))
      by (intros r; apply String.eqb_eq).
    now apply view_of_one_region. }
  assert (forall k g, In (k, g) (Pandas.groupby Category view) ->
                      In k categories /\ g = df_filtered df regions [k])
    as Hcategory.
  { intros k g Hin.
    assert (In k categories) as Hk.
    { assert (In k (map fst (Pandas.groupby Category view))) as Hkey
        by (change k with (fst (k, g)); now apply in_map).
      apply Hkeys_c in Hkey. destruct Hkey as [r [Hr <-]].
      apply df_filtered_In in Hr. tauto. }
    split; [exact Hk|].
    pose proof (Hold_c _ Hin) as Hg. cbn [fst snd] in Hg. rewrite Hg.
    rewrite (rows_with_filter Category k
               (fun r => String.eqb (Category r) k))
      by (intros r; apply String.eqb_eq).
    now apply view_of_one_category. }
  split; [intros k g Hin; now apply Hregion|].
  split.
  - intros k v Hin. unfold sales_by_region, groupby_sum in Hin.
    apply agg_In in Hin. destruct Hin as [g [Hin _]].
    destruct (Hregion k g Hin) as [Hk Hg].
    split; [exact Hk | now rewrite <- Hg].
  - split; [intros k g Hin; now apply Hcategory|].
    intros k v Hin. unfold sales_by_category, groupby_sum in Hin.
    apply agg_In in Hin. destruct Hin as [g [Hin _]].
    destruct (Hcategory k g Hin) as [Hk Hg].
    split; [exact Hk | now rewrite <- Hg].
Qed.

(** ** Grouping and filtering on the key commute *)

Lemma StronglySorted_filter {A : Type} (R : A -> A -> Prop) (p : A -> bool)
  (l : list A) :
  StronglySorted R l -> StronglySorted R (filter p l).
Proof.
  induction 1 as [|x l Hs IH Hall]; simpl; [constructor|].
  destruct (p x); [|exact IH].
  constructor; [exact IH|].
  rewrite Forall_forall in *. intros y Hy.
  apply filter_In in Hy. now apply Hall.
Qed.

Section GroupByFilter.
Context {R K : Type} `{KeyLaws K} (key : R -> K) (q : K -> bool).

Lemma group_insert_front (k : K) (r : R) (gs : list (K * list R)) :
  Forall (fun b => cmp k (fst b) = Lt) gs ->
  Pandas.group_insert k r gs = (k, [r]) :: gs.
Proof.
  destruct gs as [|[k1 g1] gs]; simpl; [reflexivity|].
  intros Hall. inversion Hall as [|? ? Hlt _]; subst. simpl in Hlt.
  now rewrite Hlt.
Qed.

Lemma group_insert_filter (k : K) (r : R) (gs : list (K * list R)) :
  keys_ascending gs ->
  filter (fun kg => q (fst kg)) (Pandas.group_insert k r gs)
  = if q k
    then Pandas.group_insert k r (filter (fun kg => q (fst kg)) gs)
    else filter (fun kg => q (fst kg)) gs.
Proof.
  induction gs as [|[k1 g1] gs IH]; intros Hs.
  - simpl. now destruct (q k).
  - pose proof Hs as Hs'. apply StronglySorted_inv in Hs'.
    destruct Hs' as [Hs' Hall].
    cbn [Pandas.group_insert]. destruct (cmp k k1) eqn:E.
    + apply cmp_eq in E. subst k1. cbn [filter fst].
      destruct (q k); [|reflexivity].
      cbn [Pandas.group_insert]. now rewrite cmp_refl.
    + assert (Forall (fun b => cmp k (fst b) = Lt) ((k1, g1) :: gs)) as Hlt.
      { constructor; [exact E|].
        apply (keys_ascending_head_notin k1 g1); [assumption | now left]. }
      cbn [filter fst]. destruct (q k); [|reflexivity].
      symmetry. apply group_insert_front.
      apply Forall_forall. intros b Hb.
      rewrite Forall_forall in Hlt. apply Hlt.
      change (In b (filter (fun kg => q (fst kg)) ((k1, g1) :: gs))) in Hb.
      apply filter_In in Hb. tauto.
    + cbn [filter fst]. rewrite (IH Hs').
      destruct (q k1), (q k); cbn [Pandas.group_insert]; try reflexivity.
      now rewrite E.
Qed.

Lemma groupby_filter_fold (df : list R) (gs : list (K * list R)) :
  keys_ascending gs ->
  filter (fun kg => q (fst kg))
    (fold_left (fun gs r => Pandas.group_insert (key r) r gs) df gs)
  = fold_left (fun gs r => Pandas.group_insert (key r) r gs)
      (filter (fun r => q (key r)) df)
      (filter (fun kg => q (fst kg)) gs).
Proof.
  revert gs. induction df as [|r df IH]; intros gs Hs; simpl.
  - reflexivity.
  - rewrite IH by now apply group_insert_ascending.
    rewrite (group_insert_filter _ _ _ Hs).
    now destruct (q (key r)).
Qed.

(** Grouping the rows whose key passes a test gives the groups, of all the
    rows, whose key passes it. *)
Lemma groupby_filter (df : list R) :
  Pandas.groupby key (filter (fun r => q (key r)) df)
  = filter (fun kg => q (fst kg)) (Pandas.groupby key df).
Proof.
  unfold Pandas.groupby. rewrite groupby_filter_fold; [reflexivity|].
  constructor.
Qed.
End GroupByFilter.

Lemma groupby_sum_filter {K V : Type} `{KeyLaws K} `{Dtype V}
  (key : Row -> K) (col : Row -> V) (q : K -> bool) (view : DataFrame) :
  filter (fun kv => q (fst kv)) (groupby_sum key col view)
  = groupby_sum key col (filter (fun r => q (key r)) view).
Proof.
  unfold groupby_sum, Pandas.agg.
  rewrite filter_map_swap, (groupby_filter key q). reflexivity.
Qed.

Lemma isin_incl (values values' : list string) (x : string) :
  incl values values' ->
  Pandas.isin String.eqb values x = true ->
  Pandas.isin String.eqb values' x = true.
Proof.
  intros Hincl Hx. apply isin_In. apply isin_In in Hx. now apply Hincl.
Qed.

Lemma narrower_view_is_a_filter_of_the_wider (df : DataFrame)
  (regions regions' categories categories' : list string) :
  incl regions regions' ->
  incl categories categories' ->
  df_filtered df regions categories
  = filter (mask regions categories) (df_filtered df regions' categories').
Proof.
  intros Hr Hc. unfold df_filtered. rewrite filter_twice.
  apply filter_ext. intros r. unfold mask.
  destruct (Pandas.isin String.eqb regions (Region r)) eqn:E1;
    destruct (Pandas.isin String.eqb categories (Category r)) eqn:E2;
    simpl; try now rewrite andb_false_r.
  now rewrite (isin_incl _ _ _ Hr E1), (isin_incl _ _ _ Hc E2).
Qed.

(** Narrowing the selection removes marks from a chart and changes none of
    those that stay.  When every selected region and category of a narrower
    selection is in a wider one, the (category, region) bars of the narrower
    view are those bars of the wider view whose category and region are
    selected; with the categories unchanged, the region bars are those of
    the wider view for the selected regions; with the regions unchanged, the
    category slices are those of the wider view for the selected
    categories. *)
Theorem narrowing_the_selection_keeps_the_other_marks (df : DataFrame)
  (regions regions' categories categories' : list string) :
  incl regions regions' ->
  incl categories categories' ->
  sales_by_category_region (df_filtered df regions categories)
  = filter (fun kv => Pandas.isin String.eqb regions (snd (fst kv))
                      && Pandas.isin String.eqb categories (fst (fst kv)))
      (sales_by_category_region (df_filtered df regions' categories'))
  /\ sales_by_region (df_filtered df regions categories')
     = filter (fun kv => Pandas.isin String.eqb regions (fst kv))
         (sales_by_region (df_filtered df regions' categories'))
  /\ sales_by_category (df_filtered df regions' categories)
     = filter (fun kv => Pandas.isin String.eqb categories (fst kv))
         (sales_by_category (df_filtered df regions' categories')).
Proof.
  intros Hr Hc. split; [|split].
  - rewrite (narrower_view_is_a_filter_of_the_wider df regions regions'
               categories categories' Hr Hc).
    unfold sales_by_category_region.
    now rewrite (groupby_sum_filter (fun r => (Category r, Region r))
                   TotalPrice
                   (fun k => Pandas.isin String.eqb regions (snd k)
                             && Pandas.isin String.eqb categories (fst k))).
  - rewrite (narrower_view_is_a_filter_of_the_wider df regions regions'
               categories' categories' Hr (incl_refl categories')).
    unfold sales_by_region.
    rewrite (groupby_sum_filter Region TotalPrice
               (fun k => Pandas.isin String.eqb regions k)).
    f_equal. apply filter_ext_in. intros r Hin.
    apply df_filtered_In in Hin. destruct Hin as [_ [_ Hcat]].
    unfold mask. apply isin_In in Hcat. now rewrite Hcat, andb_true_r.
  - rewrite (narrower_view_is_a_filter_of_the_wider df regions' regions'
               categories categories' (incl_refl regions') Hc).
    unfold sales_by_category.
    rewrite (groupby_sum_filter Category TotalPrice
               (fun k => Pandas.isin String.eqb categories k)).
    f_equal. apply filter_ext_in. intros r Hin.
    apply df_filtered_In in Hin. destruct Hin as [_ [Hreg _]].
    unfold mask. apply isin_In in Hreg. now rewrite Hreg.
Qed.

Lemma narrowing_the_selection_keeps_the_other_marks_witness :
  sales_by_region (df_filtered sample_df ["North"] ["Books"; "Electronics"])
  = filter (fun kv => Pandas.isin String.eqb ["North"] (fst kv))
      (sales_by_region
         (df_filtered sample_df ["North"; "East"] ["Books"; "Electronics"])).
Proof.
  apply (narrowing_the_selection_keeps_the_other_marks sample_df
           ["North"] ["North"; "East"]
           ["Books"] ["Books"; "Electronics"]).
  - intros x. simpl. tauto.
  - intros x. simpl. tauto.
Defined.

(** ** The time series *)

Lemma StronglySorted_impl_In {A : Type} (R1 R2 : A -> A -> Prop)
  (l : list A) :
  (forall a b, In a l -> In b l -> R1 a b -> R2 a b) ->
  StronglySorted R1 l -> StronglySorted R2 l.
Proof.
  intros Himpl Hs. induction Hs as [|x l Hs IH Hall].
  - constructor.
  - constructor.
    + apply IH. intros a b Ha Hb. apply Himpl; now right.
    + rewrite Forall_forall in *. intros y Hy.
      apply Himpl; [now left | now right | now apply Hall].
Qed.

(** The daily series has one point per day on which the view has a row, in
    strictly increasing date order; and in the series per category, the
    points of any one category are in strictly increasing date order too, so
    every line is drawn from left to right. *)
Theorem time_series_are_in_date_order (df : DataFrame)
  (regions categories : list string) :
  let view := df_filtered df regions categories in
  StronglySorted (fun a b => (fst a < fst b)%Z) (daily_sales view)
  /\ (forall d, In d (map fst (daily_sales view))
                <-> exists r, In r view /\ dt_date (Date r) = d)
  /\ (forall c,
         StronglySorted (fun a b => (fst (fst a) < fst (fst b))%Z)
           (filter (fun kv => String.eqb (snd (fst kv)) c)
              (sales_trend_category view))).
Proof.
  intros view. split; [|split].
  - destruct (groupby_sum_spec (fun r => dt_date (Date r)) TotalPrice view)
      as [Hasc _].
    exact Hasc.
  - destruct (groupby_sum_spec (fun r => dt_date (Date r)) TotalPrice view)
      as [_ [_ [Hkeys _]]].
    exact Hkeys.
  - intros c.
    destruct (groupby_sum_spec (fun r => (dt_date (Date r), Category r))
                TotalPrice view) as [Hasc _].
    apply (StronglySorted_filter _
             (fun kv => String.eqb (snd (fst kv)) c)) in Hasc.
    eapply StronglySorted_impl_In; [|exact Hasc].
    intros [[d1 c1] v1] [[d2 c2] v2] Ha Hb Hlt.
    apply filter_In in Ha, Hb. destruct Ha as [_ Ha]. destruct Hb as [_ Hb].
    cbn [fst snd] in *. apply String.eqb_eq in Ha, Hb. subst c1 c2.
    change (match Z.compare d1 d2 with
            | Eq => String.compare c c
            | o => o
            end = Lt) in Hlt.
    destruct (Z.compare d1 d2) eqn:E; try discriminate Hlt.
    + pose proof (cmp_refl c) as Hcc. simpl in Hcc. congruence.
    + exact E.
Qed.

(** ** The customers *)

Lemma sum_Z_of_nat (ns : list nat) :
  Pandas.sum (map Z.of_nat ns) = Z.of_nat (list_sum ns).
Proof.
  induction ns as [|n ns IH]; simpl; [reflexivity|].
  rewrite sum_Z_cons, IH. lia.
Qed.

Lemma total_orders_of_distinct (view : DataFrame) :
  NoDup (map OrderID view) ->
  total_orders view = Z.of_nat (List.length view).
Proof.
  intros Hnd. unfold total_orders, Pandas.nunique.
  rewrite (unique_of_NoDup Z.eqb Z.eqb_eq) by assumption.
  now rewrite length_map.
Qed.

(** On a view of the generated table the customer chart has one point per
    customer with a row in the view; the point holds the customer's total
    spending and, as order count, the number of the customer's rows, which
    is at least 1; and the order counts of all the points add up to the
    Total Orders KPI. *)
Theorem customer_points_count_the_rows (rng : RandomState)
  (regions categories : list string) :
  let view := df_filtered (load_data rng) regions categories in
  NoDup (map fst (customer_spending view))
  /\ (forall c, In c (map fst (customer_spending view))
                <-> exists r, In r view /\ CustomerID r = c)
  /\ (forall c t n,
         In (c, (t, n)) (customer_spending view) ->
         t = Pandas.sum
               (map TotalPrice
                  (filter (fun r => Z.eqb (CustomerID r) c) view))
         /\ n = Z.of_nat
                  (List.length
                     (filter (fun r => Z.eqb (CustomerID r) c) view))
         /\ (1 <= n)%Z)
  /\ Pandas.sum (map (fun p => snd (snd p)) (customer_spending view))
     = total_orders view.
Proof.
  intros view.
  assert (NoDup (map OrderID view)) as Hids
    by apply filter_keeps_column_distinct, load_data_OrderID_NoDup.
  destruct (groupby_spec CustomerID view) as [Hasc [Hold Hkeys]].
  unfold groups_hold in Hold. rewrite Forall_forall in Hold.
  assert (forall c, rows_with CustomerID c view
                    = filter (fun r => Z.eqb (CustomerID r) c) view) as Hrows.
  { intros c. apply rows_with_filter. intros r. apply Z.eqb_eq. }
  assert (forall kg, In kg (Pandas.groupby CustomerID view) ->
            Pandas.nunique Z.eqb (map OrderID (snd kg))
            = Z.of_nat (List.length (snd kg))) as Hcount.
  { intros kg Hin. unfold Pandas.nunique.
    rewrite (unique_of_NoDup Z.eqb Z.eqb_eq); [now rewrite length_map|].
    rewrite (Hold kg Hin). unfold rows_with.
    now apply filter_keeps_column_distinct. }
  unfold customer_spending.
  split; [|split; [|split]].
  - rewrite agg_keys. now apply keys_ascending_NoDup.
  - intros c. rewrite agg_keys. apply Hkeys.
  - intros c t n Hin. apply agg_In in Hin. destruct Hin as [g [Hin Heq]].
    injection Heq as -> ->.
    pose proof (Hold _ Hin) as Hg. cbn [fst snd] in Hg. rewrite Hrows in Hg.
    pose proof (Hcount _ Hin) as Hn. cbn [snd] in Hn. rewrite Hn, Hg.
    split; [reflexivity|]. split; [reflexivity|].
    assert (In c (map fst (Pandas.groupby CustomerID view))) as Hc
      by (change c with (fst (c, g)); now apply in_map).
    apply Hkeys in Hc. destruct Hc as [r [Hr Hrc]].
    assert (In r (filter (fun r => Z.eqb (CustomerID r) c) view)) as Hrin
      by (apply filter_In; split; [assumption | now apply Z.eqb_eq]).
    destruct (filter (fun r => Z.eqb (CustomerID r) c) view);
      [contradiction | simpl; lia].
  - rewrite (total_orders_of_distinct view Hids).
    rewrite <- (groupby_sizes CustomerID view), <- sum_Z_of_nat.
    f_equal. unfold Pandas.agg. rewrite !map_map.
    apply map_ext_in. intros kg Hin. cbn [snd]. now apply Hcount.
Qed.

(** ** The dashboard of an empty selection *)

(** When the dataset is unmodified and the user has cleared one of the two
    widgets, the pass shows "$0.00", "$nan" and 0 in the metrics and hands
    an empty table to every chart. *)
Theorem cleared_widget_blanks_the_dashboard (rng : RandomState) (s : Session) :
  cache_coherent rng s ->
  regions_widget s = Some [] \/ categories_widget s = Some [] ->
  snd (script rng s)
  = {| metric_total_sales := "$0.00";
       metric_avg_order_value := "$nan";
       metric_total_orders := 0%Z;
       fig_daily_sales := [];
       fig_trend_category := [];
       fig_region_sales := [];
       fig_category_region := [];
       fig_category_sales := [];
       fig_product_sales := [];
       fig_quantity_product := [];
       fig_customer := [];
       fig_price_distribution := [] |}.
Proof.
  intros Hc Hw. rewrite (script_coherent rng s Hc). cbn [snd].
  rewrite df_filtered_empty_selection; [reflexivity|].
  unfold selected_regions, selected_categories.
  destruct Hw as [-> | ->]; [left | right]; reflexivity.
Qed.

Lemma cleared_widget_blanks_the_dashboard_witness :
  metric_avg_order_value
    (snd (script ranged_rng
            {| cache_data := None;
               regions_widget := Some [];
               categories_widget := None |})) = "$nan".
Proof.
  rewrite (cleared_widget_blanks_the_dashboard ranged_rng
             {| cache_data := None;
                regions_widget := Some [];
                categories_widget := None |}).
  - reflexivity.
  - left. reflexivity.
  - left. reflexivity.
Defined.

(** ** The options of the two widgets *)

Lemma subseq_filter {A : Type} (p : A -> bool) (s l : list A) :
  subseq s l -> subseq (filter p s) l.
Proof.
  induction 1 as [|x s l Hsub IH|x s l Hsub IH]; simpl.
  - constructor.
  - destruct (p x); now constructor.
  - now constructor.
Qed.

Lemma unique_subseq {A : Type} (eqb : A -> A -> bool) (l : list A) :
  subseq (Pandas.unique eqb l) l.
Proof.
  induction l as [|x l IH]; simpl; constructor.
  now apply subseq_filter.
Qed.

Lemma unique_first_positions (column : list string) :
  StronglySorted
    (fun a b => (first_position a column < first_position b column)%nat)
    (Pandas.unique String.eqb column).
Proof.
  induction column as [|y column IH]; simpl; constructor.
  - apply (StronglySorted_filter _ (fun z => negb (String.eqb y z))) in IH.
    eapply StronglySorted_impl_In; [|exact IH].
    intros a b Ha Hb Hlt.
    apply filter_In in Ha, Hb.
    destruct Ha as [_ Ha]. destruct Hb as [_ Hb].
    apply negb_true_iff in Ha, Hb.
    rewrite String.eqb_sym in Ha. rewrite String.eqb_sym in Hb.
    cbv beta in Hlt. rewrite Ha, Hb. lia.
  - apply Forall_forall. intros b Hb.
    apply filter_In in Hb. destruct Hb as [_ Hb].
    apply negb_true_iff in Hb. rewrite String.eqb_sym in Hb.
    rewrite String.eqb_refl, Hb. lia.
Qed.

(** The options offered by each widget, which are also its default
    selection, list every value of the column once, in the order in which
    the values first appear in the table: of two options, the one listed
    first is the one whose first occurrence in the column comes first. *)
Theorem widget_options_list_each_observed_value_once (df : DataFrame) :
  let region_values := Pandas.unique String.eqb (map Region df) in
  let category_values := Pandas.unique String.eqb (map Category df) in
  (NoDup region_values
   /\ (forall x, In x region_values <-> exists r, In r df /\ Region r = x)
   /\ subseq region_values (map Region df)
   /\ StronglySorted
        (fun a b => (first_position a (map Region df)
                     < first_position b (map Region df))%nat)
        region_values)
  /\ (NoDup category_values
      /\ (forall x, In x category_values
                    <-> exists r, In r df /\ Category r = x)
      /\ subseq category_values (map Category df)
      /\ StronglySorted
           (fun a b => (first_position a (map Category df)
                        < first_position b (map Category df))%nat)
           category_values).
Proof.
  intros region_values category_values. split.
  - split; [apply (unique_NoDup String.eqb String.eqb_eq)|].
    split; [|split; [apply unique_subseq | apply unique_first_positions]].
    intros x. unfold region_values.
    rewrite (unique_In String.eqb String.eqb_eq), in_map_iff.
    split; intros [r [H1 H2]]; exists r; auto.
  - split; [apply (unique_NoDup String.eqb String.eqb_eq)|].
    split; [|split; [apply unique_subseq | apply unique_first_positions]].
    intros x. unfold category_values.
    rewrite (unique_In String.eqb String.eqb_eq), in_map_iff.
    split; intros [r [H1 H2]]; exists r; auto.
Qed.
